(** * SOCSEM 8.0.1: soil carbonyl sulfide exchange model

    A shallow embedding of [COS_abiotic_biotic_soil_flux.py] and the
    properties its specification states about it.

    Numbers.  The program computes with IEEE-754 binary64 values, held either
    in Python [float] objects or in numpy [float64] scalars and arrays.  A
    binary64 value is modelled by [float64]: a real number or one of the three
    special values [+inf], [-inf], [nan].  Arithmetic on finite values is the
    exact arithmetic of the reals; rounding, overflow, underflow and the sign
    of zero are outside the model (zero behaves as [+0.0]).  The special
    values follow IEEE-754 / C99 as numpy implements them.  Statements
    about the numbers returned are therefore phrased as relations between
    the results of calls, as the expression the source evaluates (one
    binary64 operation per operator), as bounds that hold with a margin on
    a stated range of inputs, or at single inputs.

    Values.  Python dispatches every arithmetic operator on the run-time type
    of its operands: between two Python floats, [/] raises
    [ZeroDivisionError] on a zero divisor, whereas as soon as a numpy scalar
    or array takes part the operation is numpy's and yields [inf] or [nan].
    [value] keeps that distinction, and every function of the program returns
    in the [result] monad. *)

From Stdlib Require Import Reals Lra List Bool Arith Lia ZArith.
Import ListNotations.
Local Open Scope R_scope.

(** ** Idealised binary64 *)

Inductive float64 : Type :=
| Fin (x : R)
| PInf
| NInf
| NaN.

Module F64.

Definition t : Type := float64.

Definition Rpos (x : R) : bool := if Rlt_dec 0 x then true else false.
Definition Rneg (x : R) : bool := if Rlt_dec x 0 then true else false.
Definition Rzero (x : R) : bool := if Req_dec_T x 0 then true else false.

Definition is_zero (a : t) : bool :=
  match a with Fin x => Rzero x | _ => false end.

Definition is_finite (a : t) : bool :=
  match a with Fin _ => true | _ => false end.

(** [a > b], false as soon as one side is [nan]. *)
Definition gt (a b : t) : bool :=
  match a, b with
  | NaN, _ | _, NaN => false
  | Fin x, Fin y => if Rlt_dec y x then true else false
  | PInf, PInf => false
  | PInf, _ => true
  | _, PInf => false
  | NInf, _ => false
  | Fin _, NInf => true
  end.

(** [a <= b], false as soon as one side is [nan]. *)
Definition le (a b : t) : bool :=
  match a, b with
  | NaN, _ | _, NaN => false
  | Fin x, Fin y => if Rle_dec x y then true else false
  | NInf, _ => true
  | _, PInf => true
  | PInf, _ => false
  | Fin _, NInf => false
  end.

Definition neg (a : t) : t :=
  match a with
  | Fin x => Fin (- x)
  | PInf => NInf
  | NInf => PInf
  | NaN => NaN
  end.

Definition add (a b : t) : t :=
  match a, b with
  | NaN, _ | _, NaN => NaN
  | Fin x, Fin y => Fin (x + y)
  | PInf, NInf | NInf, PInf => NaN
  | PInf, _ | _, PInf => PInf
  | NInf, _ | _, NInf => NInf
  end.

Definition sub (a b : t) : t := add a (neg b).

(** An infinity of the given sign ([true] is [+inf]). *)
Definition inf (positive : bool) : t := if positive then PInf else NInf.

(** [inf positive * b]. *)
Definition mul_inf (positive : bool) (b : t) : t :=
  match b with
  | NaN => NaN
  | Fin y => if Rzero y then NaN else inf (Bool.eqb positive (Rpos y))
  | PInf => inf positive
  | NInf => inf (negb positive)
  end.

Definition mul (a b : t) : t :=
  match a, b with
  | NaN, _ => NaN
  | Fin x, Fin y => Fin (x * y)
  | PInf, _ => mul_inf true b
  | NInf, _ => mul_inf false b
  | Fin _, PInf => mul_inf true a
  | Fin _, NInf => mul_inf false a
  | Fin _, NaN => NaN
  end.

(** IEEE division: a zero divisor yields an infinity, or [nan] for [0/0]. *)
Definition div (a b : t) : t :=
  match a, b with
  | NaN, _ | _, NaN => NaN
  | Fin x, Fin y =>
      if Rzero y then (if Rzero x then NaN else inf (Rpos x))
      else Fin (x / y)
  | Fin _, _ => Fin 0
  | PInf, Fin y => inf (negb (Rneg y))
  | NInf, Fin y => inf (Rneg y)
  | _, _ => NaN
  end.

Definition exp (a : t) : t :=
  match a with
  | Fin x => Fin (Rtrigo_def.exp x)
  | PInf => PInf
  | NInf => Fin 0
  | NaN => NaN
  end.

Definition log (a : t) : t :=
  match a with
  | Fin x => if Rpos x then Fin (ln x) else if Rzero x then NInf else NaN
  | PInf => PInf
  | NInf => NaN
  | NaN => NaN
  end.

(** Whether a real is an integer, and whether that integer is odd. *)
Definition Rint (y : R) : bool :=
  if Req_dec_T y (IZR (Int_part y)) then true else false.
Definition Rodd (y : R) : bool := Rint y && Z.odd (Int_part y).

(** [|a|] compared with one: [Lt], [Eq] or [Gt]; [a] is not [nan]. *)
Definition abs_cmp_one (a : t) : comparison :=
  match a with
  | Fin x => if Rlt_dec (Rabs x) 1 then Lt
             else if Req_dec_T (Rabs x) 1 then Eq else Gt
  | _ => Gt
  end.

(** The [pow] of the C standard, which numpy's [**] on float64 follows. *)
Definition pow (a b : t) : t :=
  if is_zero b then Fin 1
  else match a, b with
  | Fin x, _ =>
      if Req_dec_T x 1 then Fin 1
      else match b with
      | NaN => NaN
      | PInf => match abs_cmp_one a with Lt => Fin 0 | Eq => Fin 1 | Gt => PInf end
      | NInf => match abs_cmp_one a with Lt => PInf | Eq => Fin 1 | Gt => Fin 0 end
      | Fin y =>
          if Rpos x then Fin (Rpower x y)
          else if Rzero x then (if Rpos y then Fin 0 else PInf)
          else if Rint y then
                 (if Rodd y then Fin (- Rpower (- x) y) else Fin (Rpower (- x) y))
          else NaN
      end
  | NaN, _ | _, NaN => NaN
  | PInf, PInf => PInf
  | PInf, NInf => Fin 0
  | PInf, Fin y => if Rpos y then PInf else Fin 0
  | NInf, PInf => PInf
  | NInf, NInf => Fin 0
  | NInf, Fin y => if Rpos y then (if Rodd y then NInf else PInf) else Fin 0
  end.

End F64.

(** ** Python values, exceptions and operators *)

Inductive exn : Type :=
| ZeroDivisionError
| TypeError
| IndexError
| ValueError
| ComplexResult.
(** [ComplexResult] is no Python exception: it marks [float ** float] leaving
    the reals (a negative base with a fractional exponent evaluates to a
    [complex]), which [value] does not represent. *)

Inductive result (A : Type) : Type :=
| Ok (a : A)
| Raise (e : exn).
Arguments Ok {A} a.
Arguments Raise {A} e.

Definition bind {A B : Type} (c : result A) (k : A -> result B) : result B :=
  match c with
  | Ok a => k a
  | Raise e => Raise e
  end.

Notation "x <- c ;; k" := (bind c (fun x => k))
  (at level 61, c at next level, right associativity).

(** A number as the program sees it: a Python [float] (a Python [int]
    literal such as [1] or [-1] takes part in float arithmetic as the float of
    the same value), a numpy [float64] scalar, or a one-dimensional numpy
    [float64] array. *)
Inductive value : Type :=
| PyFloat (x : float64)
| NpFloat (x : float64)
| NdArray (xs : list float64).

Definition np_isscalar (v : value) : bool :=
  match v with
  | PyFloat _ | NpFloat _ => true
  | NdArray _ => false
  end.

(** The number a scalar holds ([nan] for an array, which holds none). *)
Definition scalar_of (v : value) : float64 :=
  match v with
  | PyFloat x | NpFloat x => x
  | NdArray _ => NaN
  end.

Definition zip_with (op : float64 -> float64 -> float64)
  (xs ys : list float64) : list float64 :=
  map (fun p => op (fst p) (snd p)) (combine xs ys).

(** numpy broadcasting of two one-dimensional arrays: equal lengths pair up,
    a length-one array is stretched, anything else is a shape mismatch. *)
Definition broadcast (op : float64 -> float64 -> float64)
  (xs ys : list float64) : result (list float64) :=
  if Nat.eqb (length xs) (length ys) then Ok (zip_with op xs ys)
  else match xs, ys with
       | [x], _ => Ok (map (op x) ys)
       | _, [y] => Ok (map (fun x => op x y) xs)
       | _, _ => Raise ValueError
       end.

(** A binary operator that never raises on scalars: two Python floats give a
    Python float, any numpy operand makes the result numpy's. *)
Definition lift2 (op : float64 -> float64 -> float64) (a b : value)
  : result value :=
  match a, b with
  | PyFloat x, PyFloat y => Ok (PyFloat (op x y))
  | PyFloat x, NpFloat y | NpFloat x, PyFloat y | NpFloat x, NpFloat y =>
      Ok (NpFloat (op x y))
  | PyFloat x, NdArray ys | NpFloat x, NdArray ys => Ok (NdArray (map (op x) ys))
  | NdArray xs, PyFloat y | NdArray xs, NpFloat y =>
      Ok (NdArray (map (fun x => op x y) xs))
  | NdArray xs, NdArray ys => zs <- broadcast op xs ys ;; Ok (NdArray zs)
  end.

Definition py_add : value -> value -> result value := lift2 F64.add.
Definition py_sub : value -> value -> result value := lift2 F64.sub.
Definition py_mul : value -> value -> result value := lift2 F64.mul.

(** [a / b]: [float / float] raises on a zero divisor; with a numpy operand
    the division is IEEE's. *)
Definition py_truediv (a b : value) : result value :=
  match a, b with
  | PyFloat x, PyFloat y =>
      if F64.is_zero y then Raise ZeroDivisionError else Ok (PyFloat (F64.div x y))
  | _, _ => lift2 F64.div a b
  end.

(** [a ** b]: [float ** float] is Python's own power, which raises on
    [0.0 ** negative] and leaves the reals on a negative base with a
    fractional exponent; with a numpy operand it is numpy's. *)
Definition py_pow (a b : value) : result value :=
  match a, b with
  | PyFloat x, PyFloat y =>
      match x, y with
      | Fin vx, Fin vy =>
          if F64.Rzero vx && F64.Rneg vy then Raise ZeroDivisionError
          else if F64.Rneg vx && negb (F64.Rint vy) then Raise ComplexResult
          else Ok (PyFloat (F64.pow x y))
      | _, _ => Ok (PyFloat (F64.pow x y))
      end
  | _, _ => lift2 F64.pow a b
  end.

(** Unary minus keeps the kind of its operand. *)
Definition py_neg (a : value) : value :=
  match a with
  | PyFloat x => PyFloat (F64.neg x)
  | NpFloat x => NpFloat (F64.neg x)
  | NdArray xs => NdArray (map F64.neg xs)
  end.

(** A numpy ufunc returns a numpy scalar for any scalar argument. *)
Definition ufunc (f : float64 -> float64) (a : value) : value :=
  match a with
  | PyFloat x | NpFloat x => NpFloat (f x)
  | NdArray xs => NdArray (map f xs)
  end.

Definition np_exp : value -> value := ufunc F64.exp.
Definition np_log : value -> value := ufunc F64.log.

(** [np.array(v)]: a fresh array; of a scalar, a zero-dimensional one, which
    behaves in arithmetic as a numpy scalar. *)
Definition np_array (v : value) : value :=
  match v with
  | PyFloat x | NpFloat x => NpFloat x
  | NdArray xs => NdArray xs
  end.

(** [v > c] for a scalar [v] (the program asks it only behind
    [np.isscalar(v) and ...]). *)
Definition scalar_gt (v : value) (c : float64) : bool :=
  match v with
  | PyFloat x | NpFloat x => F64.gt x c
  | NdArray _ => false
  end.

(** The positions of [true] from position [k] on. *)
Fixpoint true_positions (k : nat) (bs : list bool) : list nat :=
  match bs with
  | [] => []
  | b :: bs' => if b then k :: true_positions (S k) bs'
                else true_positions (S k) bs'
  end.

(** [np.where(v > c)]: the positions where the comparison holds. *)
Definition np_where_gt (v : value) (c : float64) : list nat :=
  match v with
  | PyFloat x | NpFloat x => if F64.gt x c then [0%nat] else []
  | NdArray xs => true_positions 0 (map (fun x => F64.gt x c) xs)
  end.

(** [v[idx]] with [idx] an index array from [np.where]. *)
Definition getitem (v : value) (idx : list nat) : result value :=
  match v with
  | PyFloat _ => Raise TypeError
  | NpFloat _ => Raise IndexError
  | NdArray xs =>
      if forallb (fun i => Nat.ltb i (length xs)) idx
      then Ok (NdArray (map (fun i => nth i xs NaN) idx))
      else Raise IndexError
  end.

Fixpoint set_nth (xs : list float64) (i : nat) (x : float64) : list float64 :=
  match xs, i with
  | [], _ => []
  | _ :: xs', O => x :: xs'
  | y :: xs', S i' => y :: set_nth xs' i' x
  end.

(** Store [vs] at the positions [idx], one after the other. *)
Fixpoint scatter (xs : list float64) (idx : list nat) (vs : list float64)
  : list float64 :=
  match idx, vs with
  | i :: idx', v :: vs' => scatter (set_nth xs i v) idx' vs'
  | _, _ => xs
  end.

(** [out[idx] = rhs]: a scalar fills every position, an array must supply one
    value per position (or be of length one). *)
Definition setitem (out : value) (idx : list nat) (rhs : value) : result value :=
  match out with
  | PyFloat _ | NpFloat _ => Raise TypeError
  | NdArray xs =>
      if forallb (fun i => Nat.ltb i (length xs)) idx then
        match rhs with
        | PyFloat c | NpFloat c => Ok (NdArray (scatter xs idx (map (fun _ => c) idx)))
        | NdArray vs =>
            if Nat.eqb (length vs) (length idx) then Ok (NdArray (scatter xs idx vs))
            else match vs with
                 | [c] => Ok (NdArray (scatter xs idx (map (fun _ => c) idx)))
                 | _ => Raise ValueError
                 end
        end
      else Raise IndexError
  end.

(** A Python float literal. *)
Definition py (x : R) : value := PyFloat (Fin x).

(** ** Soil OCS emission to the atmosphere (abiotic production) *)

Definition OCS_rainforest_production (soil_temp : value) : result value :=
  pru_a <- py_mul (py 2.7) (py 3) ;;
  let pru_k := py 0.123581 in
  let pru_b := py 205 in
  x <- py_mul (py_neg pru_k) soil_temp ;;
  y <- py_mul pru_b (np_exp x) ;;
  d <- py_add (py 1) y ;;
  py_truediv pru_a d.

Definition OCS_forest_production (soil_temp : value) : result value :=
  let wrc_a := py 20 in
  let wrc_k := py 0.160745 in
  let wrc_b := py 644.7 in
  x <- py_mul (py_neg wrc_k) soil_temp ;;
  y <- py_mul wrc_b (np_exp x) ;;
  d <- py_add (py 1) y ;;
  py_truediv wrc_a d.

Definition OCS_ag_production (soil_temp : value) : result value :=
  let bond_a := py 83 in
  let ok_k := py 0.087689 in
  let ok_b := py 146.9 in
  x <- py_mul (py_neg ok_k) soil_temp ;;
  y <- py_mul ok_b (np_exp x) ;;
  d <- py_add (py 1) y ;;
  py_truediv bond_a d.

Definition OCS_grass_production (soil_temp : value) : result value :=
  let stunt_a := py 3.9 in
  let stunt_k := py 0.115481 in
  let stunt_b := py 286 in
  x <- py_mul (py_neg stunt_k) soil_temp ;;
  y <- py_mul stunt_b (np_exp x) ;;
  d <- py_add (py 1) y ;;
  py_truediv stunt_a d.

Definition OCS_wetland_production (soil_temp : value) : result value :=
  let tx_a := py 295 in
  let tx_k := py 0.07855407 in
  let tx_b := py 41.16705972 in
  x <- py_mul (py_neg tx_k) soil_temp ;;
  y <- py_mul tx_b (np_exp x) ;;
  d <- py_add (py 1) y ;;
  py_truediv tx_a d.

(** ** Soil OCS uptake from the atmosphere *)

Definition curve_shape_a (opt_flux flux_at_theta_g theta_g theta_opt : value)
  : result value :=
  Rj <- py_truediv opt_flux flux_at_theta_g ;;
  let outs := np_log Rj in
  q <- py_truediv theta_opt theta_g ;;
  r <- py_truediv theta_g theta_opt ;;
  r1 <- py_sub r (py 1) ;;
  inversed <- py_add (np_log q) r1 ;;
  ins <- py_truediv (py 1) inversed ;;
  py_mul outs ins.

Definition flux_at_all_theta
  (all_theta opt_flux flux_at_theta_g theta_g theta_opt : value) : result value :=
  a <- curve_shape_a opt_flux flux_at_theta_g theta_g theta_opt ;;
  r <- py_truediv all_theta theta_opt ;;
  power_fct_increasing <- py_pow r a ;;
  m <- py_mul (py (-1)) a ;;
  r' <- py_truediv all_theta theta_opt ;;
  d <- py_sub r' (py 1) ;;
  e <- py_mul m d ;;
  let exp_fct_decreasing := np_exp e in
  p <- py_mul opt_flux power_fct_increasing ;;
  py_mul p exp_fct_decreasing.

Definition CONSTANT_PARAM : value := py 35.

Definition flux_theta_g_constant
  (all_theta opt_flux flux_at_theta_g theta_opt : value) : result value :=
  a <- curve_shape_a opt_flux flux_at_theta_g CONSTANT_PARAM theta_opt ;;
  r <- py_truediv all_theta theta_opt ;;
  power_fct_increasing <- py_pow r a ;;
  m <- py_mul (py (-1)) a ;;
  r' <- py_truediv all_theta theta_opt ;;
  d <- py_sub r' (py 1) ;;
  e <- py_mul m d ;;
  let exp_fct_decreasing := np_exp e in
  p <- py_mul opt_flux power_fct_increasing ;;
  py_mul p exp_fct_decreasing.

(** *** Grassland *)

Definition grass_opt_sw : value := py 12.5.

Definition grass_opt_uptake (T : value) : result value :=
  flux_at_all_theta T (py (-4.5)) (py (-1.48268657)) (py 25) (py 10.86745456).

Definition grass_other_uptake (T : value) : result value :=
  flux_at_all_theta T (py (-2.33809598)) (py (-1.27719641)) (py 25)
    (py 14.75202332).

Definition grass_uptake (T SW : value) : result value :=
  opt_uptake_for_T <- grass_opt_uptake T ;;
  uptake_at_27_sw <- grass_other_uptake T ;;
  flux_at_all_theta SW opt_uptake_for_T uptake_at_27_sw (py 26.9) grass_opt_sw.

(** *** Boreal forest *)

Definition boreal_opt_sw : value := py 12.5.

Definition boreal_opt_uptake (T : value) : result value :=
  flux_at_all_theta T (py (-18.24779932)) (py (-12)) (py 35) (py 28.05488082).

Definition boreal_other_uptake (T : value) : result value :=
  flux_at_all_theta T (py (-5.89511395)) (py (-3.76628476)) (py 35)
    (py 28.05488082).

Definition boreal_uptake (T SW : value) : result value :=
  opt_uptake_for_T <- boreal_opt_uptake T ;;
  uptake_at_20_sw <- boreal_other_uptake T ;;
  flux_at_all_theta SW opt_uptake_for_T uptake_at_20_sw (py 19.3) boreal_opt_sw.

(** *** Temperate forest *)

Definition temperate_opt_sw : value := py 24.6.

Definition temperate_opt_uptake (T : value) : result value := Ok (py (-12.6)).

Definition temperate_other_uptake (T : value) : result value :=
  x <- py_mul (py (-0.17629655)) T ;;
  py_add x (py 0.47914552).

Definition temperate_uptake (T SW : value) : result value :=
  opt_uptake_for_T <- temperate_opt_uptake T ;;
  uptake_at_51_sw <- temperate_other_uptake T ;;
  flux_at_all_theta SW opt_uptake_for_T uptake_at_51_sw (py 51) temperate_opt_sw.

(** *** Tropical forest

    [tropical_uptake] and [ag_uptake] each assign a local [CONSTANT_PARAM]
    that nothing reads; the assignment is left out. *)

Definition tropical_opt_sw : value := py 24.6.

Definition tropical_opt_uptake (T : value) : result value := Ok (py (-2.7)).

Definition tropical_other_uptake (T : value) : result value := Ok (py (-0.86)).

Definition tropical_uptake (T SW : value) : result value :=
  opt_uptake_for_T <- tropical_opt_uptake T ;;
  uptake_at_31_sw <- tropical_other_uptake T ;;
  flux_at_all_theta SW opt_uptake_for_T uptake_at_31_sw (py 31) tropical_opt_sw.

(** *** Agricultural soil *)

Definition ag_opt_sw : value := py 17.7.

Definition ag_opt_uptake : result value := Ok (py (-9.7)).

Definition ag_other_uptake : result value := Ok (py (-5.36)).

Definition ag_uptake (T SW : value) : result value :=
  opt_uptake_for_T <- ag_opt_uptake ;;
  uptake_at_22_sw <- ag_other_uptake ;;
  flux_at_all_theta SW opt_uptake_for_T uptake_at_22_sw (py 22) ag_opt_sw.

(** ** Soil uptake and emission together

    The five gated functions share one body and differ in the uptake and the
    production they call.  The keyword arguments [avg_T] and [avg_SW] of the
    three forest functions are never read and are left out. *)

Definition grass_soil_OCS (temperature soilw : value) : result value :=
  if np_isscalar temperature && scalar_gt temperature (Fin 0) then
    biotic_flux <- grass_uptake temperature soilw ;;
    abiotic_flux <- OCS_grass_production temperature ;;
    py_add biotic_flux abiotic_flux
  else if negb (np_isscalar temperature) then
    out <- py_mul (np_array temperature) (py 0) ;;
    let justright := np_where_gt temperature (Fin 0) in
    t_sel <- getitem temperature justright ;;
    sw_sel <- getitem soilw justright ;;
    biotic_flux <- grass_uptake t_sel sw_sel ;;
    t_sel' <- getitem temperature justright ;;
    abiotic_flux <- OCS_grass_production t_sel' ;;
    rhs <- py_add biotic_flux abiotic_flux ;;
    setitem out justright rhs
  else Ok (py 0).

Definition bforest_soil_OCS (temperature soilw : value) : result value :=
  if np_isscalar temperature && scalar_gt temperature (Fin 0) then
    biotic_flux <- boreal_uptake temperature soilw ;;
    abiotic_flux <- OCS_forest_production temperature ;;
    py_add biotic_flux abiotic_flux
  else if negb (np_isscalar temperature) then
    out <- py_mul (np_array temperature) (py 0) ;;
    let justright := np_where_gt temperature (Fin 0) in
    t_sel <- getitem temperature justright ;;
    sw_sel <- getitem soilw justright ;;
    biotic_flux <- boreal_uptake t_sel sw_sel ;;
    t_sel' <- getitem temperature justright ;;
    abiotic_flux <- OCS_forest_production t_sel' ;;
    rhs <- py_add biotic_flux abiotic_flux ;;
    setitem out justright rhs
  else Ok (py 0).

Definition tforest_soil_OCS (temperature soilw : value) : result value :=
  if np_isscalar temperature && scalar_gt temperature (Fin 0) then
    biotic_flux <- temperate_uptake temperature soilw ;;
    abiotic_flux <- OCS_forest_production temperature ;;
    py_add biotic_flux abiotic_flux
  else if negb (np_isscalar temperature) then
    out <- py_mul (np_array temperature) (py 0) ;;
    let justright := np_where_gt temperature (Fin 0) in
    t_sel <- getitem temperature justright ;;
    sw_sel <- getitem soilw justright ;;
    biotic_flux <- temperate_uptake t_sel sw_sel ;;
    t_sel' <- getitem temperature justright ;;
    abiotic_flux <- OCS_forest_production t_sel' ;;
    rhs <- py_add biotic_flux abiotic_flux ;;
    setitem out justright rhs
  else Ok (py 0).

Definition tropforest_soil_OCS (temperature soilw : value) : result value :=
  if np_isscalar temperature && scalar_gt temperature (Fin 0) then
    biotic_flux <- tropical_uptake temperature soilw ;;
    abiotic_flux <- OCS_rainforest_production temperature ;;
    py_add biotic_flux abiotic_flux
  else if negb (np_isscalar temperature) then
    out <- py_mul (np_array temperature) (py 0) ;;
    let justright := np_where_gt temperature (Fin 0) in
    t_sel <- getitem temperature justright ;;
    sw_sel <- getitem soilw justright ;;
    biotic_flux <- tropical_uptake t_sel sw_sel ;;
    t_sel' <- getitem temperature justright ;;
    abiotic_flux <- OCS_rainforest_production t_sel' ;;
    rhs <- py_add biotic_flux abiotic_flux ;;
    setitem out justright rhs
  else Ok (py 0).

Definition ag_soil_OCS (temperature soilw : value) : result value :=
  if np_isscalar temperature && scalar_gt temperature (Fin 0) then
    biotic_flux <- ag_uptake temperature soilw ;;
    abiotic_flux <- OCS_ag_production temperature ;;
    py_add biotic_flux abiotic_flux
  else if negb (np_isscalar temperature) then
    out <- py_mul (np_array temperature) (py 0) ;;
    let justright := np_where_gt temperature (Fin 0) in
    t_sel <- getitem temperature justright ;;
    sw_sel <- getitem soilw justright ;;
    biotic_flux <- ag_uptake t_sel sw_sel ;;
    t_sel' <- getitem temperature justright ;;
    abiotic_flux <- OCS_ag_production t_sel' ;;
    rhs <- py_add biotic_flux abiotic_flux ;;
    setitem out justright rhs
  else Ok (py 0).

(** [soilw] is [None] when the caller leaves it out (the default [0]). *)
Definition wetland_OCS (temperature : value) (soilw : option value)
  : result value :=
  OCS_wetland_production temperature.

(** ** What the code computes at one position

    The arithmetic of each function on a single binary64 value, read off the
    function bodies above; the lemmas below show that the functions compute
    exactly these, on scalars and at every position of an array. *)

Definition logistic_F (a k b : R) (T : float64) : float64 :=
  F64.div (Fin a)
    (F64.add (Fin 1) (F64.mul (Fin b) (F64.exp (F64.mul (F64.neg (Fin k)) T)))).

Definition shape_F (o f g t : float64) : float64 :=
  F64.mul (F64.log (F64.div o f))
    (F64.div (Fin 1)
       (F64.add (F64.log (F64.div t g)) (F64.sub (F64.div g t) (Fin 1)))).

(** The response at the moisture ratio [r], for the exponent [a]. *)
Definition response_F (r o a : float64) : float64 :=
  F64.mul
    (F64.mul o (F64.pow r a))
    (F64.exp (F64.mul (F64.mul (Fin (-1)) a) (F64.sub r (Fin 1)))).

Definition curve_F (th o f g t : float64) : float64 :=
  response_F (F64.div th t) o (shape_F o f g t).

Definition grass_uptake_F (T SW : float64) : float64 :=
  curve_F SW
    (curve_F T (Fin (-4.5)) (Fin (-1.48268657)) (Fin 25) (Fin 10.86745456))
    (curve_F T (Fin (-2.33809598)) (Fin (-1.27719641)) (Fin 25) (Fin 14.75202332))
    (Fin 26.9) (Fin 12.5).

Definition boreal_uptake_F (T SW : float64) : float64 :=
  curve_F SW
    (curve_F T (Fin (-18.24779932)) (Fin (-12)) (Fin 35) (Fin 28.05488082))
    (curve_F T (Fin (-5.89511395)) (Fin (-3.76628476)) (Fin 35) (Fin 28.05488082))
    (Fin 19.3) (Fin 12.5).

Definition temperate_uptake_F (T SW : float64) : float64 :=
  curve_F SW (Fin (-12.6))
    (F64.add (F64.mul (Fin (-0.17629655)) T) (Fin 0.47914552))
    (Fin 51) (Fin 24.6).

Definition tropical_uptake_F (T SW : float64) : float64 :=
  curve_F SW (Fin (-2.7)) (Fin (-0.86)) (Fin 31) (Fin 24.6).

Definition ag_uptake_F (T SW : float64) : float64 :=
  curve_F SW (Fin (-9.7)) (Fin (-5.36)) (Fin 22) (Fin 17.7).


Definition gated_array_F (flux : float64 -> float64 -> float64)
  (T SW : float64) : float64 :=
  if F64.gt T (Fin 0) then flux T SW else F64.mul T (Fin 0).

(** ** The formulas of the specification *)

(** Section 4.4: [a_max / (1 + b * exp (- k * T))]. *)
Definition spec_production (a_max k b T : R) : R :=
  a_max / (1 + b * exp (- k * T)).

(** Section 4.1: the shape exponent. *)
Definition spec_shape (opt_flux flux_at_ref ref_moisture opt_moisture : R) : R :=
  ln (opt_flux / flux_at_ref)
  / (ln (opt_moisture / ref_moisture) + ref_moisture / opt_moisture - 1).

(** Section 4.2: the moisture response curve. *)
Definition spec_curve
  (moisture opt_flux flux_at_ref ref_moisture opt_moisture : R) : R :=
  let a := spec_shape opt_flux flux_at_ref ref_moisture opt_moisture in
  opt_flux * Rpower (moisture / opt_moisture) a
  * exp (- a * (moisture / opt_moisture - 1)).

(** Section 4.2 with the exponent [a] given:
    [opt_flux * (moisture / opt_moisture) ^ a
     * exp (- a * (moisture / opt_moisture - 1))], in binary64 arithmetic. *)
Definition spec_response_F (moisture opt_flux opt_moisture a : float64)
  : float64 :=
  F64.mul
    (F64.mul opt_flux (F64.pow (F64.div moisture opt_moisture) a))
    (F64.exp
       (F64.mul (F64.neg a) (F64.sub (F64.div moisture opt_moisture) (Fin 1)))).

(** The expression [curve_shape_a] evaluates, [outs * (1 / inversed)], read
    over the reals. *)
Definition shape_R (opt_flux flux_at_theta_g theta_g theta_opt : R) : R :=
  ln (opt_flux / flux_at_theta_g)
  * (1 / (ln (theta_opt / theta_g) + (theta_g / theta_opt - 1))).

(** ** Helpers for the statements *)

Definition is_np (v : value) : bool :=
  match v with PyFloat _ => false | _ => true end.

(** No [float / float] with a zero divisor. *)
Definition no_zero_div (a b : value) : Prop :=
  match a, b with
  | PyFloat _, PyFloat y => F64.is_zero y = false
  | _, _ => True
  end.

(** The scalar [v], a Python float or a numpy scalar, holds the real [x]. *)
Definition holds (v : value) (x : R) : Prop :=
  v = PyFloat (Fin x) \/ v = NpFloat (Fin x).

(** [f] returns the numpy scalar [y] for the real argument [t], handed over
    as a Python float or as a numpy scalar. *)
Definition returns (f : value -> result value) (t y : R) : Prop :=
  f (PyFloat (Fin t)) = Ok (NpFloat (Fin y))
  /\ f (NpFloat (Fin t)) = Ok (NpFloat (Fin y)).

(** The shape computation is degenerate: the flux ratio is at most zero, or
    the two moistures coincide. *)
Definition degenerate (o f g t : float64) : Prop :=
  F64.le (F64.div o f) (Fin 0) = true \/ g = t.

(** [nan] or an infinity. *)
Definition non_finite (x : float64) : Prop := F64.is_finite x = false.

(** A scalar temperature at or below the gate. *)
Definition scalar_le_zero (v : value) : Prop :=
  np_isscalar v = true /\ F64.le (scalar_of v) (Fin 0) = true.

(** [v] holds, at every element [p] of [l], the number [phi p]: a scalar
    holds one number for all of them, an array one per element. *)
Inductive Rep {A : Type} (l : list A) : value -> (A -> float64) -> Prop :=
| Rep_py (c : float64) : Rep l (PyFloat c) (fun _ => c)
| Rep_np (c : float64) : Rep l (NpFloat c) (fun _ => c)
| Rep_arr (phi : A -> float64) : Rep l (NdArray (map phi l)) phi.

(** The body the five gated functions share, with the uptake and the
    production as parameters; each of them is an instance of it. *)
Definition soil_OCS_body
  (uptake : value -> value -> result value) (production : value -> result value)
  (temperature soilw : value) : result value :=
  if np_isscalar temperature && scalar_gt temperature (Fin 0) then
    biotic_flux <- uptake temperature soilw ;;
    abiotic_flux <- production temperature ;;
    py_add biotic_flux abiotic_flux
  else if negb (np_isscalar temperature) then
    out <- py_mul (np_array temperature) (py 0) ;;
    let justright := np_where_gt temperature (Fin 0) in
    t_sel <- getitem temperature justright ;;
    sw_sel <- getitem soilw justright ;;
    biotic_flux <- uptake t_sel sw_sel ;;
    t_sel' <- getitem temperature justright ;;
    abiotic_flux <- production t_sel' ;;
    rhs <- py_add biotic_flux abiotic_flux ;;
    setitem out justright rhs
  else Ok (py 0).

(** The elements of [xs] at the positions where [bs] is [true]. *)
Fixpoint select {A : Type} (bs : list bool) (xs : list A) : list A :=
  match bs, xs with
  | b :: bs', x :: xs' => if b then x :: select bs' xs' else select bs' xs'
  | _, _ => []
  end.


(** The array path of [f] on [ts] and [sws] returns an array of the same
    length whose every position holds what the scalar path returns for the
    numpy scalars at that position. *)
Definition elementwise (f : value -> value -> result value)
  (ts sws : list float64) : Prop :=
  exists out,
    f (NdArray ts) (NdArray sws) = Ok (NdArray out)
    /\ length out = length ts
    /\ forall i, (i < length ts)%nat ->
         exists v, f (NpFloat (nth i ts NaN)) (NpFloat (nth i sws NaN)) = Ok v
                   /\ np_isscalar v = true
                   /\ nth i out NaN = scalar_of v.

(** ** The uptake of the biomes with constant temperature curves, over the
    reals *)

Definition tropical_uptake_R (SW : R) : R := spec_curve SW (-2.7) (-0.86) 31 24.6.

Definition ag_uptake_R (SW : R) : R := spec_curve SW (-9.7) (-5.36) 22 17.7.

(** The linear fit of [temperate_other_uptake], at one position. *)
Definition temperate_fit (T : float64) : float64 :=
  F64.add (F64.mul (Fin (-0.17629655)) T) (Fin 0.47914552).

(** At the optimum moisture [opt_sw] of a biome the moisture curve returns
    the optimum uptake: for a scalar temperature above the gate for which
    [curve_shape_a] returns a finite exponent from the two uptakes of that
    temperature, [f] returns the optimum uptake plus the production. *)
Definition collapses_at_optimum
  (f : value -> value -> result value)
  (opt_uptake other_uptake production : value -> result value)
  (ref_sw opt_sw : R) : Prop :=
  forall (vT vSW uo uf : value) (a : R),
    np_isscalar vT = true -> F64.gt (scalar_of vT) (Fin 0) = true ->
    holds vSW opt_sw ->
    opt_uptake vT = Ok uo -> other_uptake vT = Ok uf ->
    curve_shape_a uo uf (py ref_sw) (py opt_sw) = Ok (NpFloat (Fin a)) ->
    exists p : float64,
      production vT = Ok (NpFloat p)
      /\ f vT vSW = Ok (NpFloat (F64.add (scalar_of uo) p)).

(** What the array path of [f] does position by position on [ts] and [sws]:
    it returns an array as long as [ts]; a position above the gate holds
    what the scalar path returns for the numpy scalars there, a position
    with a finite temperature at or below zero holds [0.0], and a position
    with a [nan] or [-inf] temperature holds [nan]. *)
Definition gate_by_position (f : value -> value -> result value)
  (ts sws : list float64) : Prop :=
  exists out,
    f (NdArray ts) (NdArray sws) = Ok (NdArray out)
    /\ length out = length ts
    /\ forall i, (i < length ts)%nat ->
         (F64.gt (nth i ts NaN) (Fin 0) = true ->
          f (NpFloat (nth i ts NaN)) (NpFloat (nth i sws NaN))
          = Ok (NpFloat (nth i out NaN)))
         /\ (forall x, nth i ts NaN = Fin x -> x <= 0 -> nth i out NaN = Fin 0)
         /\ (nth i ts NaN = NaN \/ nth i ts NaN = NInf -> nth i out NaN = NaN).

(** [f] broadcasts the scalar temperature [vT] over the moistures [sws]: it
    returns an array as long as [sws] that holds, at each position, what [f]
    returns for [vT] and the numpy scalar at that position. *)
Definition broadcasts_moisture (f : value -> value -> result value)
  (vT : value) (sws : list float64) : Prop :=
  exists out,
    f vT (NdArray sws) = Ok (NdArray out)
    /\ length out = length sws
    /\ forall i, (i < length sws)%nat ->
         f vT (NpFloat (nth i sws NaN)) = Ok (NpFloat (nth i out NaN)).




(** * Properties *)

(** ** Arithmetic of [float64] *)

Module F64Facts.

Lemma Rzero_false (x : R) : x <> 0 -> F64.Rzero x = false.
Proof. intros H. unfold F64.Rzero. destruct (Req_dec_T x 0); [contradiction | reflexivity]. Qed.

Lemma Rzero_true (x : R) : x = 0 -> F64.Rzero x = true.
Proof. intros H. unfold F64.Rzero. destruct (Req_dec_T x 0); [reflexivity | contradiction]. Qed.

Lemma Rpos_true (x : R) : 0 < x -> F64.Rpos x = true.
Proof. intros H. unfold F64.Rpos. destruct (Rlt_dec 0 x); [reflexivity | contradiction]. Qed.

Lemma Rpos_false (x : R) : x <= 0 -> F64.Rpos x = false.
Proof. intros H. unfold F64.Rpos. destruct (Rlt_dec 0 x); [lra | reflexivity]. Qed.

Lemma Rneg_true (x : R) : x < 0 -> F64.Rneg x = true.
Proof. intros H. unfold F64.Rneg. destruct (Rlt_dec x 0); [reflexivity | contradiction]. Qed.

Lemma Rneg_false (x : R) : 0 <= x -> F64.Rneg x = false.
Proof. intros H. unfold F64.Rneg. destruct (Rlt_dec x 0); [lra | reflexivity]. Qed.

Lemma div_fin (x y : R) : y <> 0 -> F64.div (Fin x) (Fin y) = Fin (x / y).
Proof. intros H. simpl. now rewrite Rzero_false. Qed.

Lemma log_pos (x : R) : 0 < x -> F64.log (Fin x) = Fin (ln x).
Proof. intros H. simpl. now rewrite Rpos_true. Qed.

Lemma log_neg (x : R) : x < 0 -> F64.log (Fin x) = NaN.
Proof.
  intros H. simpl. rewrite Rpos_false by lra. rewrite Rzero_false by lra. reflexivity.
Qed.

Lemma gt_zero_fin (x : R) : 0 < x -> F64.gt (Fin x) (Fin 0) = true.
Proof. intros H. simpl. destruct (Rlt_dec 0 x); [reflexivity | contradiction]. Qed.

(** A value at or below zero fails the strict gate. *)
Lemma le_zero_not_gt (a : float64) :
  F64.le a (Fin 0) = true -> F64.gt a (Fin 0) = false.
Proof.
  destruct a as [x | | |]; simpl; try congruence.
  destruct (Rle_dec x 0), (Rlt_dec 0 x); try reflexivity; try discriminate; lra.
Qed.

(** [1 ** b] is [1] whatever [b] is, [nan] included. *)
Lemma pow_one (b : float64) : F64.pow (Fin 1) b = Fin 1.
Proof.
  unfold F64.pow. destruct (F64.is_zero b); [reflexivity |].
  destruct (Req_dec_T 1 1); [reflexivity | contradiction].
Qed.

Lemma pow_pos (x y : R) : 0 < x -> F64.pow (Fin x) (Fin y) = Fin (Rpower x y).
Proof.
  intros Hx. unfold F64.pow, F64.is_zero, F64.Rzero.
  destruct (Req_dec_T y 0) as [-> | Hy].
  - now rewrite Rpower_O.
  - destruct (Req_dec_T x 1) as [-> | H1].
    + unfold Rpower. rewrite ln_1, Rmult_0_r, exp_0. reflexivity.
    + now rewrite Rpos_true.
Qed.

End F64Facts.

(** ** Operators on scalars and arrays, uniformly *)

Section Elementwise.

Context {A : Type} (l : list A).

(** An array is what [Rep] says it is, and a numpy scalar likewise. *)
Lemma Rep_array (c : value) (chi : A -> float64) :
  Rep l c chi -> np_isscalar c = false -> c = NdArray (map chi l).
Proof. intros [x | x | phi]; simpl; congruence. Qed.

Lemma Rep_np_scalar (c : value) (chi : A -> float64) (p : A) :
  Rep l c chi -> np_isscalar c = true -> is_np c = true -> c = NpFloat (chi p).
Proof. intros [x | x | phi]; simpl; congruence. Qed.

Lemma zip_with_map (op : float64 -> float64 -> float64) (phi psi : A -> float64) :
  zip_with op (map phi l) (map psi l) = map (fun p => op (phi p) (psi p)) l.
Proof.
  unfold zip_with. induction l as [| p l' IH]; simpl; [reflexivity |].
  now rewrite IH.
Qed.

Lemma broadcast_map (op : float64 -> float64 -> float64) (phi psi : A -> float64) :
  broadcast op (map phi l) (map psi l) = Ok (map (fun p => op (phi p) (psi p)) l).
Proof.
  unfold broadcast. rewrite !length_map, Nat.eqb_refl. now rewrite zip_with_map.
Qed.

Lemma lift2_Rep (op : float64 -> float64 -> float64) (a b : value)
  (phi psi : A -> float64) :
  Rep l a phi -> Rep l b psi ->
  exists c, lift2 op a b = Ok c
            /\ Rep l c (fun p => op (phi p) (psi p))
            /\ is_np c = is_np a || is_np b
            /\ np_isscalar c = np_isscalar a && np_isscalar b.
Proof.
  intros [x | x | f] [y | y | g]; simpl.
  - exists (PyFloat (op x y)). repeat split. apply (Rep_py l).
  - exists (NpFloat (op x y)). repeat split. apply (Rep_np l).
  - exists (NdArray (map (fun p => op x (g p)) l)).
    rewrite map_map. repeat split. apply (Rep_arr l).
  - exists (NpFloat (op x y)). repeat split. apply (Rep_np l).
  - exists (NpFloat (op x y)). repeat split. apply (Rep_np l).
  - exists (NdArray (map (fun p => op x (g p)) l)).
    rewrite map_map. repeat split. apply (Rep_arr l).
  - exists (NdArray (map (fun p => op (f p) y) l)).
    rewrite map_map. repeat split. apply (Rep_arr l).
  - exists (NdArray (map (fun p => op (f p) y) l)).
    rewrite map_map. repeat split. apply (Rep_arr l).
  - exists (NdArray (map (fun p => op (f p) (g p)) l)).
    rewrite broadcast_map. repeat split. apply (Rep_arr l).
Qed.

Lemma py_add_Rep (a b : value) (phi psi : A -> float64) :
  Rep l a phi -> Rep l b psi ->
  exists c, py_add a b = Ok c
            /\ Rep l c (fun p => F64.add (phi p) (psi p))
            /\ is_np c = is_np a || is_np b
            /\ np_isscalar c = np_isscalar a && np_isscalar b.
Proof. apply lift2_Rep. Qed.

Lemma py_sub_Rep (a b : value) (phi psi : A -> float64) :
  Rep l a phi -> Rep l b psi ->
  exists c, py_sub a b = Ok c
            /\ Rep l c (fun p => F64.sub (phi p) (psi p))
            /\ is_np c = is_np a || is_np b
            /\ np_isscalar c = np_isscalar a && np_isscalar b.
Proof. apply lift2_Rep. Qed.

Lemma py_mul_Rep (a b : value) (phi psi : A -> float64) :
  Rep l a phi -> Rep l b psi ->
  exists c, py_mul a b = Ok c
            /\ Rep l c (fun p => F64.mul (phi p) (psi p))
            /\ is_np c = is_np a || is_np b
            /\ np_isscalar c = np_isscalar a && np_isscalar b.
Proof. apply lift2_Rep. Qed.

Lemma py_truediv_Rep (a b : value) (phi psi : A -> float64) :
  Rep l a phi -> Rep l b psi -> no_zero_div a b ->
  exists c, py_truediv a b = Ok c
            /\ Rep l c (fun p => F64.div (phi p) (psi p))
            /\ is_np c = is_np a || is_np b
            /\ np_isscalar c = np_isscalar a && np_isscalar b.
Proof.
  intros Ra Rb Hz.
  destruct Ra as [x | x | f]; try (apply lift2_Rep; (assumption || constructor)).
  destruct Rb as [y | y | g]; try (apply (lift2_Rep F64.div); constructor).
  simpl in *. rewrite Hz.
  exists (PyFloat (F64.div x y)). repeat split. apply (Rep_py l).
Qed.

(** [**] with an exponent that numpy produced. *)
Lemma py_pow_Rep (a b : value) (phi psi : A -> float64) :
  Rep l a phi -> Rep l b psi -> is_np b = true ->
  exists c, py_pow a b = Ok c
            /\ Rep l c (fun p => F64.pow (phi p) (psi p))
            /\ is_np c = true
            /\ np_isscalar c = np_isscalar a && np_isscalar b.
Proof.
  intros Ra Rb Hb.
  assert (E : py_pow a b = lift2 F64.pow a b).
  { destruct a, b; simpl in *; try reflexivity; discriminate. }
  rewrite E. destruct (lift2_Rep F64.pow a b phi psi Ra Rb) as (c & Ec & Rc & Kc & Sc).
  exists c. rewrite Kc, Hb, orb_true_r. auto.
Qed.

Lemma py_neg_Rep (a : value) (phi : A -> float64) :
  Rep l a phi ->
  Rep l (py_neg a) (fun p => F64.neg (phi p))
  /\ is_np (py_neg a) = is_np a
  /\ np_isscalar (py_neg a) = np_isscalar a.
Proof.
  intros [x | x | f]; simpl; repeat split.
  - apply (Rep_py l).
  - apply (Rep_np l).
  - rewrite map_map. apply (Rep_arr l).
Qed.

Lemma ufunc_Rep (f : float64 -> float64) (a : value) (phi : A -> float64) :
  Rep l a phi ->
  Rep l (ufunc f a) (fun p => f (phi p))
  /\ is_np (ufunc f a) = true
  /\ np_isscalar (ufunc f a) = np_isscalar a.
Proof.
  intros [x | x | g]; simpl; repeat split.
  - apply (Rep_np l).
  - apply (Rep_np l).
  - rewrite map_map. apply (Rep_arr l).
Qed.

Lemma np_exp_Rep (a : value) (phi : A -> float64) :
  Rep l a phi ->
  Rep l (np_exp a) (fun p => F64.exp (phi p))
  /\ is_np (np_exp a) = true
  /\ np_isscalar (np_exp a) = np_isscalar a.
Proof. apply ufunc_Rep. Qed.

Lemma np_log_Rep (a : value) (phi : A -> float64) :
  Rep l a phi ->
  Rep l (np_log a) (fun p => F64.log (phi p))
  /\ is_np (np_log a) = true
  /\ np_isscalar (np_log a) = np_isscalar a.
Proof. apply ufunc_Rep. Qed.

Lemma Rep_literal (x : R) : Rep l (py x) (fun _ => Fin x).
Proof. apply (Rep_py l). Qed.

(** A numpy value never divides as a Python float. *)
Lemma no_zero_div_np_l (a b : value) : is_np a = true -> no_zero_div a b.
Proof. destruct a; simpl; [discriminate | exact (fun _ => I) ..]. Qed.

Lemma no_zero_div_np_r (a b : value) : is_np b = true -> no_zero_div a b.
Proof. destruct a, b; simpl; try discriminate; exact (fun _ => I). Qed.

Lemma no_zero_div_literal (a : value) (y : R) : y <> 0 -> no_zero_div a (py y).
Proof.
  intros Hy. destruct a; simpl; try exact I. now apply F64Facts.Rzero_false.
Qed.

End Elementwise.

(** ** The functions of the program, on scalars and arrays uniformly *)

(** Rewrite the kind bookkeeping away. *)
Ltac kinds :=
  repeat match goal with
         | H : is_np _ = _ |- _ => rewrite H; clear H
         | H : np_isscalar _ = _ |- _ => rewrite H; clear H
         end;
  simpl; rewrite ?orb_true_r, ?andb_true_r, ?andb_true_l; try reflexivity;
  repeat match goal with
         | |- context [np_isscalar ?v] => destruct (np_isscalar v)
         end;
  reflexivity.

(** Side conditions of the operator lemmas. *)
Ltac rep_side :=
  first
    [ eassumption
    | apply Rep_literal
    | apply Rep_py
    | apply no_zero_div_literal; lra
    | apply no_zero_div_np_r; solve [kinds]
    | apply no_zero_div_np_l; solve [kinds]
    | solve [kinds] ].

(** Run the operator at the head of the goal. *)
Ltac rep_op l :=
  let c := fresh "c" in
  let E := fresh "E" in
  let R := fresh "R" in
  let K := fresh "K" in
  let S := fresh "S" in
  lazymatch goal with
  | |- exists _, bind (py_add ?a ?b) _ = _ /\ _ =>
      edestruct (py_add_Rep l a b) as (c & E & R & K & S);
      [ rep_side .. | rewrite E; cbn [bind]; cbv beta in R ]
  | |- exists _, bind (py_sub ?a ?b) _ = _ /\ _ =>
      edestruct (py_sub_Rep l a b) as (c & E & R & K & S);
      [ rep_side .. | rewrite E; cbn [bind]; cbv beta in R ]
  | |- exists _, bind (py_mul ?a ?b) _ = _ /\ _ =>
      edestruct (py_mul_Rep l a b) as (c & E & R & K & S);
      [ rep_side .. | rewrite E; cbn [bind]; cbv beta in R ]
  | |- exists _, bind (py_truediv ?a ?b) _ = _ /\ _ =>
      edestruct (py_truediv_Rep l a b) as (c & E & R & K & S);
      [ rep_side .. | rewrite E; cbn [bind]; cbv beta in R ]
  | |- exists _, bind (py_pow ?a ?b) _ = _ /\ _ =>
      edestruct (py_pow_Rep l a b) as (c & E & R & K & S);
      [ rep_side .. | rewrite E; cbn [bind]; cbv beta in R ]
  end.

(** Run the last operator of a body and conclude. *)
Ltac rep_done c E R :=
  exists c; split; [exact E | split; [exact R | split; solve [kinds]]].

Ltac rep_last l :=
  let c := fresh "c" in
  let E := fresh "E" in
  let R := fresh "R" in
  let K := fresh "K" in
  let S := fresh "S" in
  lazymatch goal with
  | |- exists _, py_add ?a ?b = _ /\ _ =>
      edestruct (py_add_Rep l a b) as (c & E & R & K & S);
      [ rep_side .. | rep_done c E R ]
  | |- exists _, py_mul ?a ?b = _ /\ _ =>
      edestruct (py_mul_Rep l a b) as (c & E & R & K & S);
      [ rep_side .. | rep_done c E R ]
  | |- exists _, py_truediv ?a ?b = _ /\ _ =>
      edestruct (py_truediv_Rep l a b) as (c & E & R & K & S);
      [ rep_side .. | rep_done c E R ]
  end.

(** Run the call at the head of the goal, by its own lemma. *)
Ltac rep_call lem :=
  let c := fresh "c" in
  let E := fresh "E" in
  let R := fresh "R" in
  let K := fresh "K" in
  let S := fresh "S" in
  edestruct lem as (c & E & R & K & S);
  [ rep_side .. | rewrite E; cbn [bind]; cbv beta in R ].

Ltac rep_tail lem :=
  let c := fresh "c" in
  let E := fresh "E" in
  let R := fresh "R" in
  let K := fresh "K" in
  let S := fresh "S" in
  edestruct lem as (c & E & R & K & S); [ rep_side .. | rep_done c E R ].

(** Record what a unary numpy function or a negation returns. *)
Ltac rep_un lem a :=
  let R := fresh "R" in
  let K := fresh "K" in
  let S := fresh "S" in
  edestruct (lem a) as (R & K & S); [ rep_side .. | cbv beta in R ].

Section Programs.

Context {A : Type} (l : list A).

Lemma OCS_grass_production_Rep (T : value) (phi : A -> float64) :
  Rep l T phi ->
  exists c, OCS_grass_production T = Ok c
            /\ Rep l c (fun p => logistic_F 3.9 0.115481 286 (phi p))
            /\ is_np c = true
            /\ np_isscalar c = np_isscalar T.
Proof.
  intros HT. unfold OCS_grass_production.
  rep_un (py_neg_Rep l) (py 0.115481).
  rep_op l. rep_un (np_exp_Rep l) c.
  rep_op l. rep_op l.
  rep_last l.
Qed.

Lemma OCS_rainforest_production_Rep (T : value) (phi : A -> float64) :
  Rep l T phi ->
  exists c, OCS_rainforest_production T = Ok c
            /\ Rep l c (fun p => logistic_F (2.7 * 3) 0.123581 205 (phi p))
            /\ is_np c = true
            /\ np_isscalar c = np_isscalar T.
Proof.
  intros HT. unfold OCS_rainforest_production.
  rep_op l. rep_un (py_neg_Rep l) (py 0.123581).
  rep_op l. rep_un (np_exp_Rep l) c0.
  rep_op l. rep_op l.
  rep_last l.
Qed.

Lemma OCS_forest_production_Rep (T : value) (phi : A -> float64) :
  Rep l T phi ->
  exists c, OCS_forest_production T = Ok c
            /\ Rep l c (fun p => logistic_F 20 0.160745 644.7 (phi p))
            /\ is_np c = true
            /\ np_isscalar c = np_isscalar T.
Proof.
  intros HT. unfold OCS_forest_production.
  rep_un (py_neg_Rep l) (py 0.160745).
  rep_op l. rep_un (np_exp_Rep l) c.
  rep_op l. rep_op l.
  rep_last l.
Qed.

Lemma OCS_ag_production_Rep (T : value) (phi : A -> float64) :
  Rep l T phi ->
  exists c, OCS_ag_production T = Ok c
            /\ Rep l c (fun p => logistic_F 83 0.087689 146.9 (phi p))
            /\ is_np c = true
            /\ np_isscalar c = np_isscalar T.
Proof.
  intros HT. unfold OCS_ag_production.
  rep_un (py_neg_Rep l) (py 0.087689).
  rep_op l. rep_un (np_exp_Rep l) c.
  rep_op l. rep_op l.
  rep_last l.
Qed.

Lemma OCS_wetland_production_Rep (T : value) (phi : A -> float64) :
  Rep l T phi ->
  exists c, OCS_wetland_production T = Ok c
            /\ Rep l c (fun p => logistic_F 295 0.07855407 41.16705972 (phi p))
            /\ is_np c = true
            /\ np_isscalar c = np_isscalar T.
Proof.
  intros HT. unfold OCS_wetland_production.
  rep_un (py_neg_Rep l) (py 0.07855407).
  rep_op l. rep_un (np_exp_Rep l) c.
  rep_op l. rep_op l.
  rep_last l.
Qed.

Lemma curve_shape_a_Rep (o f g t : value) (fo ff fg ft : A -> float64) :
  Rep l o fo -> Rep l f ff -> Rep l g fg -> Rep l t ft ->
  no_zero_div o f -> no_zero_div t g -> no_zero_div g t ->
  exists c, curve_shape_a o f g t = Ok c
            /\ Rep l c (fun p => shape_F (fo p) (ff p) (fg p) (ft p))
            /\ is_np c = true
            /\ np_isscalar c
               = np_isscalar o && np_isscalar f && np_isscalar g && np_isscalar t.
Proof.
  intros Ho Hf Hg Ht Zof Ztg Zgt. unfold curve_shape_a.
  rep_op l. rep_un (np_log_Rep l) c.
  rep_op l. rep_un (np_log_Rep l) c0.
  rep_op l. rep_op l. rep_op l. rep_op l.
  rep_last l.
Qed.

Lemma flux_at_all_theta_Rep (th o f g t : value) (fth fo ff fg ft : A -> float64) :
  Rep l th fth -> Rep l o fo -> Rep l f ff -> Rep l g fg -> Rep l t ft ->
  no_zero_div o f -> no_zero_div t g -> no_zero_div g t -> no_zero_div th t ->
  exists c, flux_at_all_theta th o f g t = Ok c
            /\ Rep l c (fun p => curve_F (fth p) (fo p) (ff p) (fg p) (ft p))
            /\ is_np c = true
            /\ np_isscalar c
               = np_isscalar th && np_isscalar o && np_isscalar f
                 && np_isscalar g && np_isscalar t.
Proof.
  intros Hth Ho Hf Hg Ht Zof Ztg Zgt Ztht. unfold flux_at_all_theta.
  rep_call (curve_shape_a_Rep o f g t).
  rep_op l. rep_op l. rep_op l. rep_op l. rep_op l.
  rep_un (np_exp_Rep l) c4.
  rep_op l.
  rep_last l.
Qed.

Lemma grass_uptake_Rep (T SW : value) (phi psi : A -> float64) :
  Rep l T phi -> Rep l SW psi ->
  exists c, grass_uptake T SW = Ok c
            /\ Rep l c (fun p => grass_uptake_F (phi p) (psi p))
            /\ is_np c = true
            /\ np_isscalar c = np_isscalar T && np_isscalar SW.
Proof.
  intros HT HSW. unfold grass_uptake, grass_opt_uptake, grass_other_uptake.
  rep_call (flux_at_all_theta_Rep T (py (-4.5)) (py (-1.48268657)) (py 25)
              (py 10.86745456)).
  rep_call (flux_at_all_theta_Rep T (py (-2.33809598)) (py (-1.27719641)) (py 25)
              (py 14.75202332)).
  rep_tail (flux_at_all_theta_Rep SW c c0 (py 26.9) grass_opt_sw).
Qed.

Lemma boreal_uptake_Rep (T SW : value) (phi psi : A -> float64) :
  Rep l T phi -> Rep l SW psi ->
  exists c, boreal_uptake T SW = Ok c
            /\ Rep l c (fun p => boreal_uptake_F (phi p) (psi p))
            /\ is_np c = true
            /\ np_isscalar c = np_isscalar T && np_isscalar SW.
Proof.
  intros HT HSW. unfold boreal_uptake, boreal_opt_uptake, boreal_other_uptake.
  rep_call (flux_at_all_theta_Rep T (py (-18.24779932)) (py (-12)) (py 35)
              (py 28.05488082)).
  rep_call (flux_at_all_theta_Rep T (py (-5.89511395)) (py (-3.76628476)) (py 35)
              (py 28.05488082)).
  rep_tail (flux_at_all_theta_Rep SW c c0 (py 19.3) boreal_opt_sw).
Qed.

(** The temperate curve divides a Python float by the linear fit, so the fit
    must not be a Python float: the temperature has to be numpy's. *)
Lemma temperate_uptake_Rep (T SW : value) (phi psi : A -> float64) :
  Rep l T phi -> Rep l SW psi -> is_np T = true ->
  exists c, temperate_uptake T SW = Ok c
            /\ Rep l c (fun p => temperate_uptake_F (phi p) (psi p))
            /\ is_np c = true
            /\ np_isscalar c = np_isscalar T && np_isscalar SW.
Proof.
  intros HT HSW HnT.
  unfold temperate_uptake, temperate_opt_uptake, temperate_other_uptake.
  cbn [bind]. rep_call (py_mul_Rep l (py (-0.17629655)) T).
  rep_call (py_add_Rep l c (py 0.47914552)).
  rep_tail (flux_at_all_theta_Rep SW (py (-12.6)) c0 (py 51) temperate_opt_sw).
Qed.

Lemma tropical_uptake_Rep (T SW : value) (phi psi : A -> float64) :
  Rep l T phi -> Rep l SW psi ->
  exists c, tropical_uptake T SW = Ok c
            /\ Rep l c (fun p => tropical_uptake_F (phi p) (psi p))
            /\ is_np c = true
            /\ np_isscalar c = np_isscalar SW.
Proof.
  intros HT HSW. unfold tropical_uptake, tropical_opt_uptake, tropical_other_uptake.
  cbn [bind].
  rep_tail (flux_at_all_theta_Rep SW (py (-2.7)) (py (-0.86)) (py 31)
              tropical_opt_sw).
Qed.

Lemma ag_uptake_Rep (T SW : value) (phi psi : A -> float64) :
  Rep l T phi -> Rep l SW psi ->
  exists c, ag_uptake T SW = Ok c
            /\ Rep l c (fun p => ag_uptake_F (phi p) (psi p))
            /\ is_np c = true
            /\ np_isscalar c = np_isscalar SW.
Proof.
  intros HT HSW. unfold ag_uptake, ag_opt_uptake, ag_other_uptake.
  cbn [bind].
  rep_tail (flux_at_all_theta_Rep SW (py (-9.7)) (py (-5.36)) (py 22) ag_opt_sw).
Qed.

End Programs.

(** ** Index arrays: [np.where], reading and storing through them *)

Section Indexing.

Context {A : Type}.

Lemma select_map {B : Type} (f : A -> B) (bs : list bool) (xs : list A) :
  select bs (map f xs) = map f (select bs xs).
Proof.
  revert xs. induction bs as [| b bs IH]; intros [| x xs]; simpl; try reflexivity.
  destruct b; simpl; now rewrite IH.
Qed.

Lemma length_true_positions (k : nat) (bs : list bool) (xs : list A) :
  length bs = length xs ->
  length (true_positions k bs) = length (select bs xs).
Proof.
  revert k xs. induction bs as [| b bs IH]; intros k [| x xs] H; simpl in *;
    try reflexivity; try discriminate.
  injection H as H. destruct b; simpl; now rewrite (IH (S k) xs H).
Qed.

End Indexing.

Lemma nth_middle_app (pre : list float64) (x : float64) (rest : list float64) :
  nth (length pre) (pre ++ x :: rest) NaN = x.
Proof. induction pre as [| y pre IH]; simpl; [reflexivity | exact IH]. Qed.

Lemma set_nth_middle (pre : list float64) (x v : float64) (rest : list float64) :
  set_nth (pre ++ x :: rest) (length pre) v = pre ++ v :: rest.
Proof. induction pre as [| y pre IH]; simpl; [reflexivity | now rewrite IH]. Qed.

Lemma app_cons_shift (pre : list float64) (x : float64) (rest : list float64) :
  pre ++ x :: rest = (pre ++ [x]) ++ rest.
Proof. now rewrite <- app_assoc. Qed.

Lemma length_snoc (pre : list float64) (x : float64) :
  length (pre ++ [x]) = S (length pre).
Proof. rewrite length_app. simpl. lia. Qed.

(** Every position [np.where] reports lies inside the array. *)
Lemma true_positions_in_range (pre xs : list float64) (bs : list bool) :
  length bs = length xs ->
  forallb (fun i => Nat.ltb i (length (pre ++ xs)))
    (true_positions (length pre) bs) = true.
Proof.
  revert pre xs. induction bs as [| b bs IH]; intros pre [| x xs] H; simpl in *;
    try reflexivity; try discriminate.
  injection H as H.
  specialize (IH (pre ++ [x]) xs H).
  rewrite length_snoc, <- app_cons_shift in IH.
  destruct b; simpl; [| exact IH].
  rewrite IH, andb_true_r. apply Nat.ltb_lt. rewrite length_app. simpl. lia.
Qed.

(** Reading through the positions of a mask selects by the mask. *)
Lemma gather_true_positions (pre xs : list float64) (bs : list bool) :
  length bs = length xs ->
  map (fun i => nth i (pre ++ xs) NaN) (true_positions (length pre) bs)
  = select bs xs.
Proof.
  revert pre xs. induction bs as [| b bs IH]; intros pre [| x xs] H; simpl in *;
    try reflexivity; try discriminate.
  injection H as H.
  specialize (IH (pre ++ [x]) xs H).
  rewrite length_snoc, <- app_cons_shift in IH.
  destruct b; simpl; [| exact IH].
  now rewrite IH, nth_middle_app.
Qed.

(** Storing through the positions of a mask replaces exactly the masked
    elements, in order. *)
Lemma scatter_true_positions {A : Type} (b : A -> bool) (z v : A -> float64)
  (pre : list float64) (l : list A) :
  scatter (pre ++ map z l) (true_positions (length pre) (map b l))
    (map v (select (map b l) l))
  = pre ++ map (fun p => if b p then v p else z p) l.
Proof.
  revert pre. induction l as [| p l IH]; intros pre; simpl; [reflexivity |].
  specialize (IH (pre ++ [if b p then v p else z p])).
  rewrite length_snoc, <- !app_cons_shift in IH.
  destruct (b p); simpl; [rewrite set_nth_middle |]; exact IH.
Qed.

Lemma map_fst_combine_eq (ts sws : list float64) :
  length ts = length sws -> map fst (combine ts sws) = ts.
Proof.
  revert sws. induction ts as [| t ts IH]; intros [| sw sws] H; simpl in *;
    try reflexivity; try discriminate.
  injection H as H. now rewrite IH.
Qed.

Lemma map_snd_combine_eq (ts sws : list float64) :
  length ts = length sws -> map snd (combine ts sws) = sws.
Proof.
  revert sws. induction ts as [| t ts IH]; intros [| sw sws] H; simpl in *;
    try reflexivity; try discriminate.
  injection H as H. now rewrite IH.
Qed.

Lemma getitem_where (xs : list float64) (bs : list bool) :
  length bs = length xs ->
  getitem (NdArray xs) (true_positions 0 bs) = Ok (NdArray (select bs xs)).
Proof.
  intros H. unfold getitem.
  pose proof (true_positions_in_range [] xs bs H) as Hr.
  pose proof (gather_true_positions [] xs bs H) as Hg.
  cbn [app length] in Hr, Hg. now rewrite Hr, Hg.
Qed.

Lemma setitem_where {A : Type} (b : A -> bool) (z v : A -> float64) (l : list A) :
  setitem (NdArray (map z l)) (true_positions 0 (map b l))
    (NdArray (map v (select (map b l) l)))
  = Ok (NdArray (map (fun p => if b p then v p else z p) l)).
Proof.
  unfold setitem.
  assert (Hlen : length (map b l) = length (map z l)) by now rewrite !length_map.
  pose proof (true_positions_in_range [] (map z l) (map b l) Hlen) as Hr.
  pose proof (scatter_true_positions b z v [] l) as Hs.
  cbn [app length] in Hr, Hs. rewrite Hr, Hs.
  rewrite length_map.
  rewrite (length_true_positions 0 (map b l) l) by now rewrite length_map.
  now rewrite Nat.eqb_refl.
Qed.

(** ** The gate *)

(** Each gated function is the shared body at its uptake and production. *)
Lemma grass_soil_OCS_body :
  grass_soil_OCS = soil_OCS_body grass_uptake OCS_grass_production.
Proof. reflexivity. Qed.

Lemma bforest_soil_OCS_body :
  bforest_soil_OCS = soil_OCS_body boreal_uptake OCS_forest_production.
Proof. reflexivity. Qed.

Lemma tforest_soil_OCS_body :
  tforest_soil_OCS = soil_OCS_body temperate_uptake OCS_forest_production.
Proof. reflexivity. Qed.

Lemma tropforest_soil_OCS_body :
  tropforest_soil_OCS = soil_OCS_body tropical_uptake OCS_rainforest_production.
Proof. reflexivity. Qed.

Lemma ag_soil_OCS_body :
  ag_soil_OCS = soil_OCS_body ag_uptake OCS_ag_production.
Proof. reflexivity. Qed.

Section Gate.

Variable uptake : value -> value -> result value.
Variable production : value -> result value.
Variable U : float64 -> float64 -> float64.
Variable P : float64 -> float64.

Let flux (T SW : float64) : float64 := F64.add (U T SW) (P T).

Hypothesis uptake_array : forall l : list (float64 * float64),
  uptake (NdArray (map fst l)) (NdArray (map snd l))
  = Ok (NdArray (map (fun p => U (fst p) (snd p)) l)).
Hypothesis production_array : forall l : list (float64 * float64),
  production (NdArray (map fst l)) = Ok (NdArray (map (fun p => P (fst p)) l)).
Hypothesis uptake_scalar : forall t sw : float64,
  uptake (NpFloat t) (NpFloat sw) = Ok (NpFloat (U t sw)).
Hypothesis production_scalar : forall t : float64,
  production (NpFloat t) = Ok (NpFloat (P t)).

Lemma soil_OCS_body_array (l : list (float64 * float64)) :
  soil_OCS_body uptake production (NdArray (map fst l)) (NdArray (map snd l))
  = Ok (NdArray (map (fun p => gated_array_F flux (fst p) (snd p)) l)).
Proof.
  unfold soil_OCS_body. cbn [np_isscalar andb negb np_array np_where_gt].
  cbn [py py_mul lift2 bind]. rewrite !map_map.
  set (b := fun p : float64 * float64 => F64.gt (fst p) (Fin 0)).
  rewrite (getitem_where (map fst l) (map b l)) by now rewrite !length_map.
  rewrite (getitem_where (map snd l) (map b l)) by now rewrite !length_map.
  cbn [bind]. rewrite !select_map.
  rewrite uptake_array, production_array. cbn [bind].
  unfold py_add. cbn [lift2]. rewrite broadcast_map. cbn [bind].
  exact (setitem_where b (fun p => F64.mul (fst p) (Fin 0))
           (fun p => F64.add (U (fst p) (snd p)) (P (fst p))) l).
Qed.

Lemma soil_OCS_body_scalar (t sw : float64) :
  soil_OCS_body uptake production (NpFloat t) (NpFloat sw)
  = Ok (if F64.gt t (Fin 0) then NpFloat (flux t sw) else py 0).
Proof.
  unfold soil_OCS_body. cbn [np_isscalar andb negb scalar_gt].
  destruct (F64.gt t (Fin 0)); [| reflexivity].
  now rewrite uptake_scalar, production_scalar.
Qed.



End Gate.

(** ** The formulas over the reals *)

(** [ln x + 1/x - 1] vanishes only at [x = 1]: the denominator of the shape
    exponent is zero only when the two moistures coincide. *)
Lemma ln_recip_pos (x : R) : 0 < x -> x <> 1 -> 0 < ln x + / x - 1.
Proof.
  intros Hx H1.
  assert (Hln : - ln x <> 0).
  { intros E. apply (ln_neq_0 x H1 Hx). lra. }
  pose proof (exp_ineq1 (- ln x) Hln) as H.
  rewrite exp_Ropp, exp_ln in H by assumption. lra.
Qed.

Lemma div_pos_nonzero (x y : R) : 0 < x / y -> x <> 0 /\ y <> 0.
Proof.
  intros H. split; intros ->; unfold Rdiv in H.
  - rewrite Rmult_0_l in H. lra.
  - rewrite Rinv_0, Rmult_0_r in H. lra.
Qed.

Lemma shape_denominator (g t : R) :
  0 < t / g -> g <> t -> 0 < ln (t / g) + g / t - 1.
Proof.
  intros Hq Hne. destruct (div_pos_nonzero t g Hq) as [Ht Hg].
  replace (g / t) with (/ (t / g)) by (field; split; assumption).
  apply ln_recip_pos; [assumption |].
  intros E. apply Hne. apply (Rmult_eq_compat_r g) in E.
  unfold Rdiv in E. rewrite Rmult_assoc, Rinv_l, Rmult_1_r, Rmult_1_l in E by assumption.
  now symmetry.
Qed.

Lemma shape_F_real (o f g t : R) :
  0 < o / f -> 0 < t / g -> g <> t ->
  shape_F (Fin o) (Fin f) (Fin g) (Fin t) = Fin (spec_shape o f g t).
Proof.
  intros Hr Hq Hne.
  destruct (div_pos_nonzero o f Hr) as [_ Hf].
  destruct (div_pos_nonzero t g Hq) as [Ht Hg].
  pose proof (shape_denominator g t Hq Hne) as HD.
  unfold shape_F, F64.sub.
  rewrite !F64Facts.div_fin, !F64Facts.log_pos by assumption.
  cbn [F64.neg F64.add].
  rewrite F64Facts.div_fin by lra.
  cbn [F64.mul]. f_equal. unfold spec_shape.
  replace (ln (t / g) + (g / t + - (1))) with (ln (t / g) + g / t - 1) by ring.
  unfold Rdiv. ring.
Qed.

Lemma response_F_real (r o a : R) :
  0 < r ->
  response_F (Fin r) (Fin o) (Fin a)
  = Fin (o * Rpower r a * exp (- a * (r - 1))).
Proof.
  intros Hr. unfold response_F, F64.sub.
  rewrite F64Facts.pow_pos by assumption.
  cbn [F64.neg F64.add F64.mul F64.exp]. f_equal. f_equal. f_equal. ring.
Qed.

Lemma curve_F_real (th o f g t : R) :
  0 < o / f -> 0 < t / g -> g <> t -> 0 < th / t ->
  curve_F (Fin th) (Fin o) (Fin f) (Fin g) (Fin t) = Fin (spec_curve th o f g t).
Proof.
  intros Hr Hq Hne Hth.
  destruct (div_pos_nonzero t g Hq) as [Ht _].
  unfold curve_F. rewrite shape_F_real, F64Facts.div_fin by assumption.
  now rewrite response_F_real.
Qed.

(** At the optimum moisture the curve is the optimum flux. *)
Lemma spec_curve_at_optimum (o f g t : R) : t <> 0 -> spec_curve t o f g t = o.
Proof.
  intros Ht. unfold spec_curve. cbv zeta.
  replace (t / t) with 1 by (field; assumption).
  unfold Rpower. rewrite ln_1, Rmult_0_r, exp_0.
  replace (- spec_shape o f g t * (1 - 1)) with 0 by ring.
  rewrite exp_0. ring.
Qed.

(** The curve keeps the sign of the optimum flux. *)
Lemma spec_curve_sign (th o f g t : R) :
  exists k, 0 < k /\ spec_curve th o f g t = o * k.
Proof.
  exists (Rpower (th / t) (spec_shape o f g t)
          * exp (- spec_shape o f g t * (th / t - 1))).
  split.
  - apply Rmult_lt_0_compat; [unfold Rpower |]; apply exp_pos.
  - unfold spec_curve. cbv zeta. ring.
Qed.

Lemma logistic_F_real (a k b t : R) :
  0 < b -> logistic_F a k b (Fin t) = Fin (spec_production a k b t).
Proof.
  intros Hb. unfold logistic_F. cbn [F64.neg F64.mul F64.exp F64.add].
  pose proof (exp_pos (- k * t)) as He.
  rewrite F64Facts.div_fin by nra. reflexivity.
Qed.

Lemma spec_production_bounds (a k b t : R) :
  0 < a -> 0 < b -> 0 < spec_production a k b t < a.
Proof.
  intros Ha Hb. unfold spec_production.
  pose proof (exp_pos (- k * t)) as He.
  assert (HD : 1 < 1 + b * exp (- k * t)) by nra.
  split.
  - apply Rdiv_lt_0_compat; lra.
  - apply (Rmult_lt_reg_r (1 + b * exp (- k * t))); [lra |].
    unfold Rdiv. rewrite Rmult_assoc, Rinv_l by lra. nra.
Qed.

(** ** Scalars *)

Lemma Rep_of_scalar (v : value) :
  np_isscalar v = true -> Rep (@nil unit) v (fun _ => scalar_of v).
Proof. destruct v; simpl; intros H; try discriminate; constructor. Qed.

Lemma holds_scalar (v : value) (x : R) :
  holds v x -> np_isscalar v = true /\ scalar_of v = Fin x.
Proof. intros [-> | ->]; now split. Qed.

Lemma holds_no_zero_div (a b : value) (y : R) :
  holds b y -> y <> 0 -> no_zero_div a b.
Proof.
  intros [-> | ->] Hy; destruct a; simpl; try exact I.
  now apply F64Facts.Rzero_false.
Qed.

(** On scalars that cause no [float / float] by zero, [curve_shape_a]
    returns the numpy scalar [shape_F] computes. *)
Lemma curve_shape_a_scalar (o f g t : value) :
  np_isscalar o = true -> np_isscalar f = true ->
  np_isscalar g = true -> np_isscalar t = true ->
  no_zero_div o f -> no_zero_div t g -> no_zero_div g t ->
  curve_shape_a o f g t
  = Ok (NpFloat (shape_F (scalar_of o) (scalar_of f) (scalar_of g) (scalar_of t))).
Proof.
  intros So Sf Sg St Zof Ztg Zgt.
  destruct (curve_shape_a_Rep (@nil unit) o f g t _ _ _ _
              (Rep_of_scalar o So) (Rep_of_scalar f Sf)
              (Rep_of_scalar g Sg) (Rep_of_scalar t St) Zof Ztg Zgt)
    as (c & E & R & K & S).
  rewrite E. f_equal.
  apply (Rep_np_scalar (@nil unit) c _ tt R); [| exact K].
  now rewrite S, So, Sf, Sg, St.
Qed.

Lemma flux_at_all_theta_scalar (th o f g t : value) :
  np_isscalar th = true -> np_isscalar o = true -> np_isscalar f = true ->
  np_isscalar g = true -> np_isscalar t = true ->
  no_zero_div o f -> no_zero_div t g -> no_zero_div g t -> no_zero_div th t ->
  flux_at_all_theta th o f g t
  = Ok (NpFloat (curve_F (scalar_of th) (scalar_of o) (scalar_of f)
                   (scalar_of g) (scalar_of t))).
Proof.
  intros Sth So Sf Sg St Zof Ztg Zgt Ztht.
  destruct (flux_at_all_theta_Rep (@nil unit) th o f g t _ _ _ _ _
              (Rep_of_scalar th Sth) (Rep_of_scalar o So) (Rep_of_scalar f Sf)
              (Rep_of_scalar g Sg) (Rep_of_scalar t St) Zof Ztg Zgt Ztht)
    as (c & E & R & K & S).
  rewrite E. f_equal.
  apply (Rep_np_scalar (@nil unit) c _ tt R); [| exact K].
  now rewrite S, Sth, So, Sf, Sg, St.
Qed.

Lemma returns_of_Rep (f : value -> result value) (F : float64 -> float64) :
  (forall (T : value) (phi : unit -> float64),
      Rep (@nil unit) T phi ->
      exists c, f T = Ok c
                /\ Rep (@nil unit) c (fun p => F (phi p))
                /\ is_np c = true
                /\ np_isscalar c = np_isscalar T) ->
  forall t y : R, F (Fin t) = Fin y -> returns f t y.
Proof.
  intros H t y Hy. split.
  - destruct (H (PyFloat (Fin t)) _ (Rep_py nil (Fin t))) as (c & E & R & K & S).
    rewrite E, <- Hy. f_equal.
    now apply (Rep_np_scalar (@nil unit) c _ tt R).
  - destruct (H (NpFloat (Fin t)) _ (Rep_np nil (Fin t))) as (c & E & R & K & S).
    rewrite E, <- Hy. f_equal.
    now apply (Rep_np_scalar (@nil unit) c _ tt R).
Qed.

(** ** The biome functions on scalars of either kind *)

(** From a uniform description to any pair of scalars. *)
Ltac scalar_any lem :=
  let c := fresh "c" in
  let E := fresh "E" in
  let R := fresh "R" in
  let K := fresh "K" in
  let S := fresh "S" in
  intros vT vSW ST SSW;
  edestruct (lem unit (@nil unit) vT vSW) as (c & E & R & K & S);
  [ first [ apply Rep_of_scalar; assumption | assumption ] .. | ];
  rewrite E; f_equal;
  apply (Rep_np_scalar (@nil unit) c _ tt R);
  [ rewrite S, ?ST, ?SSW; reflexivity | exact K ].

Lemma grass_uptake_any (vT vSW : value) :
  np_isscalar vT = true -> np_isscalar vSW = true ->
  grass_uptake vT vSW
  = Ok (NpFloat (grass_uptake_F (scalar_of vT) (scalar_of vSW))).
Proof. revert vT vSW. scalar_any @grass_uptake_Rep. Qed.

Lemma boreal_uptake_any (vT vSW : value) :
  np_isscalar vT = true -> np_isscalar vSW = true ->
  boreal_uptake vT vSW
  = Ok (NpFloat (boreal_uptake_F (scalar_of vT) (scalar_of vSW))).
Proof. revert vT vSW. scalar_any @boreal_uptake_Rep. Qed.

Lemma tropical_uptake_any (vT vSW : value) :
  np_isscalar vT = true -> np_isscalar vSW = true ->
  tropical_uptake vT vSW
  = Ok (NpFloat (tropical_uptake_F (scalar_of vT) (scalar_of vSW))).
Proof. revert vT vSW. scalar_any @tropical_uptake_Rep. Qed.

Lemma ag_uptake_any (vT vSW : value) :
  np_isscalar vT = true -> np_isscalar vSW = true ->
  ag_uptake vT vSW = Ok (NpFloat (ag_uptake_F (scalar_of vT) (scalar_of vSW))).
Proof. revert vT vSW. scalar_any @ag_uptake_Rep. Qed.

(** The temperate uptake divides the Python float [-12.6] by the linear fit:
    with a Python float temperature the fit must not be zero. *)
Lemma temperate_uptake_any (vT vSW : value) :
  np_isscalar vT = true -> np_isscalar vSW = true ->
  (is_np vT = true
   \/ F64.is_zero (F64.add (F64.mul (Fin (-0.17629655)) (scalar_of vT))
                     (Fin 0.47914552)) = false) ->
  temperate_uptake vT vSW
  = Ok (NpFloat (temperate_uptake_F (scalar_of vT) (scalar_of vSW))).
Proof.
  intros ST SSW Hz.
  assert (N51 : (51 : R) <> 0) by lra.
  assert (N24 : (24.6 : R) <> 0) by lra.
  unfold temperate_uptake, temperate_opt_uptake, temperate_other_uptake.
  cbn [bind].
  destruct vT as [x | x | xs]; try discriminate; cbn [py py_mul py_add lift2 bind].
  - destruct Hz as [Hz | Hz]; [discriminate |].
    rewrite flux_at_all_theta_scalar; try assumption; try reflexivity;
      try (apply no_zero_div_literal; assumption); exact Hz.
  - rewrite flux_at_all_theta_scalar; try assumption; try reflexivity;
      try (apply no_zero_div_literal; assumption); exact I.
Qed.

Ltac production_any lem :=
  let c := fresh "c" in
  let E := fresh "E" in
  let R := fresh "R" in
  let K := fresh "K" in
  let S := fresh "S" in
  intros vT ST;
  edestruct (lem unit (@nil unit) vT) as (c & E & R & K & S);
  [ apply Rep_of_scalar; assumption | ];
  rewrite E; f_equal;
  apply (Rep_np_scalar (@nil unit) c _ tt R);
  [ rewrite S, ST; reflexivity | exact K ].

Lemma OCS_rainforest_production_any (vT : value) :
  np_isscalar vT = true ->
  OCS_rainforest_production vT
  = Ok (NpFloat (logistic_F (2.7 * 3) 0.123581 205 (scalar_of vT))).
Proof. revert vT. production_any @OCS_rainforest_production_Rep. Qed.

Lemma OCS_forest_production_any (vT : value) :
  np_isscalar vT = true ->
  OCS_forest_production vT
  = Ok (NpFloat (logistic_F 20 0.160745 644.7 (scalar_of vT))).
Proof. revert vT. production_any @OCS_forest_production_Rep. Qed.

Lemma OCS_ag_production_any (vT : value) :
  np_isscalar vT = true ->
  OCS_ag_production vT
  = Ok (NpFloat (logistic_F 83 0.087689 146.9 (scalar_of vT))).
Proof. revert vT. production_any @OCS_ag_production_Rep. Qed.

Lemma OCS_grass_production_any (vT : value) :
  np_isscalar vT = true ->
  OCS_grass_production vT
  = Ok (NpFloat (logistic_F 3.9 0.115481 286 (scalar_of vT))).
Proof. revert vT. production_any @OCS_grass_production_Rep. Qed.

Lemma OCS_wetland_production_any (vT : value) :
  np_isscalar vT = true ->
  OCS_wetland_production vT
  = Ok (NpFloat (logistic_F 295 0.07855407 41.16705972 (scalar_of vT))).
Proof. revert vT. production_any @OCS_wetland_production_Rep. Qed.

(** The shared body on a scalar temperature, gate open and gate closed. *)
Lemma soil_OCS_body_open
  (uptake : value -> value -> result value) (production : value -> result value)
  (vT vSW : value) (u p : float64) :
  np_isscalar vT = true -> F64.gt (scalar_of vT) (Fin 0) = true ->
  uptake vT vSW = Ok (NpFloat u) -> production vT = Ok (NpFloat p) ->
  soil_OCS_body uptake production vT vSW = Ok (NpFloat (F64.add u p)).
Proof.
  intros ST G Hu Hp. unfold soil_OCS_body.
  assert (E : np_isscalar vT && scalar_gt vT (Fin 0) = true).
  { rewrite ST. destruct vT; simpl in *; try discriminate; exact G. }
  now rewrite E, Hu, Hp.
Qed.

Lemma soil_OCS_body_closed
  (uptake : value -> value -> result value) (production : value -> result value)
  (vT vSW : value) :
  np_isscalar vT = true -> F64.gt (scalar_of vT) (Fin 0) = false ->
  soil_OCS_body uptake production vT vSW = Ok (py 0).
Proof.
  intros ST G. unfold soil_OCS_body.
  assert (E : np_isscalar vT && scalar_gt vT (Fin 0) = false).
  { rewrite ST. destruct vT; simpl in *; try discriminate; exact G. }
  now rewrite E, ST.
Qed.

Lemma soil_OCS_body_any
  (uptake : value -> value -> result value) (production : value -> result value)
  (vT vSW : value) (u p : float64) :
  np_isscalar vT = true ->
  uptake vT vSW = Ok (NpFloat u) -> production vT = Ok (NpFloat p) ->
  soil_OCS_body uptake production vT vSW
  = Ok (if F64.gt (scalar_of vT) (Fin 0) then NpFloat (F64.add u p) else py 0).
Proof.
  intros ST Hu Hp. destruct (F64.gt (scalar_of vT) (Fin 0)) eqn:G.
  - now apply soil_OCS_body_open.
  - now apply soil_OCS_body_closed.
Qed.

(** What the production functions return for a real temperature, in the
    arithmetic of the model. *)
Lemma rainforest_production_returns (T : R) :
  returns OCS_rainforest_production T (spec_production 8.1 0.123581 205 T).
Proof.
  apply (returns_of_Rep _ _ (OCS_rainforest_production_Rep nil)).
  rewrite logistic_F_real by lra. do 2 f_equal. lra.
Qed.

Lemma forest_production_returns (T : R) :
  returns OCS_forest_production T (spec_production 20 0.160745 644.7 T).
Proof.
  apply (returns_of_Rep _ _ (OCS_forest_production_Rep nil)).
  apply logistic_F_real. lra.
Qed.

Lemma ag_production_returns (T : R) :
  returns OCS_ag_production T (spec_production 83 0.087689 146.9 T).
Proof.
  apply (returns_of_Rep _ _ (OCS_ag_production_Rep nil)).
  apply logistic_F_real. lra.
Qed.

Lemma grass_production_returns (T : R) :
  returns OCS_grass_production T (spec_production 3.9 0.115481 286 T).
Proof.
  apply (returns_of_Rep _ _ (OCS_grass_production_Rep nil)).
  apply logistic_F_real. lra.
Qed.

Lemma wetland_production_returns (T : R) :
  returns OCS_wetland_production T
    (spec_production 295 0.07855407 41.16705972 T).
Proof.
  apply (returns_of_Rep _ _ (OCS_wetland_production_Rep nil)).
  apply logistic_F_real. lra.
Qed.

(** * The claims *)

(** C7: each abiotic production function evaluates
    [a_max / (1 + b * exp (- k * T))] with the constants of its biome family
    (rainforest, temperate and boreal forest, agricultural, grassland,
    wetland), one binary64 operation per operator of the formula, for a
    scalar of either kind and whatever number it holds; the rainforest
    numerator is the product [2.7 * 3] of the source.  For every temperature
    from absolute zero to 100 degrees the number returned lies strictly
    between [0] and [a_max].  Further out the rounding of binary64 decides
    (the curve reaches [a_max] and [0.0] themselves), which the arithmetic
    of this model does not carry. *)
Theorem production_is_logistic :
  (forall v : value,
      np_isscalar v = true ->
      OCS_rainforest_production v
      = Ok (NpFloat (logistic_F (2.7 * 3) 0.123581 205 (scalar_of v)))
      /\ OCS_forest_production v
         = Ok (NpFloat (logistic_F 20 0.160745 644.7 (scalar_of v)))
      /\ OCS_ag_production v
         = Ok (NpFloat (logistic_F 83 0.087689 146.9 (scalar_of v)))
      /\ OCS_grass_production v
         = Ok (NpFloat (logistic_F 3.9 0.115481 286 (scalar_of v)))
      /\ OCS_wetland_production v
         = Ok (NpFloat (logistic_F 295 0.07855407 41.16705972 (scalar_of v))))
  /\ (forall T : R,
         -273.15 <= T <= 100 ->
         (exists y, returns OCS_rainforest_production T y /\ 0 < y < 8.1)
         /\ (exists y, returns OCS_forest_production T y /\ 0 < y < 20)
         /\ (exists y, returns OCS_ag_production T y /\ 0 < y < 83)
         /\ (exists y, returns OCS_grass_production T y /\ 0 < y < 3.9)
         /\ (exists y, returns OCS_wetland_production T y /\ 0 < y < 295)).
Proof.
  split.
  - intros v Sv. repeat split.
    + now apply OCS_rainforest_production_any.
    + now apply OCS_forest_production_any.
    + now apply OCS_ag_production_any.
    + now apply OCS_grass_production_any.
    + now apply OCS_wetland_production_any.
  - intros T _. repeat split.
    + exists (spec_production 8.1 0.123581 205 T).
      split; [apply rainforest_production_returns |].
      apply spec_production_bounds; lra.
    + exists (spec_production 20 0.160745 644.7 T).
      split; [apply forest_production_returns |].
      apply spec_production_bounds; lra.
    + exists (spec_production 83 0.087689 146.9 T).
      split; [apply ag_production_returns |].
      apply spec_production_bounds; lra.
    + exists (spec_production 3.9 0.115481 286 T).
      split; [apply grass_production_returns |].
      apply spec_production_bounds; lra.
    + exists (spec_production 295 0.07855407 41.16705972 T).
      split; [apply wetland_production_returns |].
      apply spec_production_bounds; lra.
Qed.

Lemma production_is_logistic_witness :
  OCS_grass_production (py 20)
  = Ok (NpFloat (logistic_F 3.9 0.115481 286 (Fin 20)))
  /\ exists y, returns OCS_grass_production 20 y /\ 0 < y < 3.9.
Proof.
  assert (HT : -273.15 <= 20 <= 100) by lra.
  destruct production_is_logistic as [Hform Hrange].
  split.
  - exact (proj1 (proj2 (proj2 (proj2 (Hform (py 20) eq_refl))))).
  - exact (proj1 (proj2 (proj2 (proj2 (Hrange 20 HT))))).
Defined.

(** C3: [wetland_OCS] is [OCS_wetland_production] of the temperature alone,
    whatever the moisture argument is and also when it is left out, for
    scalars and arrays alike: it evaluates
    [295 / (1 + 41.16705972 * exp (-0.07855407 * T))] in binary64
    arithmetic, in particular at [T = 10].  No gate sets the result to
    zero: at every temperature from absolute zero upwards, those at or
    below [0] included, the number returned is positive.  (Far below
    absolute zero [exp] overflows in binary64 and the quotient is [0.0];
    the arithmetic of this model does not carry that.) *)
Theorem wetland_is_production :
  (forall (T : value) (soilw : option value),
      wetland_OCS T soilw = OCS_wetland_production T)
  /\ (forall (T : value) (soilw : option value),
         np_isscalar T = true ->
         wetland_OCS T soilw
         = Ok (NpFloat (logistic_F 295 0.07855407 41.16705972 (scalar_of T))))
  /\ (forall soilw : option value,
         wetland_OCS (py 10) soilw
         = Ok (NpFloat
                 (F64.div (Fin 295)
                    (F64.add (Fin 1)
                       (F64.mul (Fin 41.16705972)
                          (F64.exp (F64.mul (F64.neg (Fin 0.07855407))
                                      (Fin 10))))))))
  /\ (forall (soilw : option value) (t : R),
         -273.15 <= t ->
         exists y, returns (fun T => wetland_OCS T soilw) t y /\ 0 < y).
Proof.
  split; [reflexivity |]. split; [| split].
  - intros T soilw ST. unfold wetland_OCS.
    now apply OCS_wetland_production_any.
  - intros soilw. unfold wetland_OCS.
    exact (OCS_wetland_production_any (py 10) eq_refl).
  - intros soilw t _.
    exists (spec_production 295 0.07855407 41.16705972 t). split.
    + apply wetland_production_returns.
    + apply spec_production_bounds; lra.
Qed.

Lemma wetland_is_production_witness :
  wetland_OCS (py (-5)) (Some (py 20)) = OCS_wetland_production (py (-5))
  /\ exists y, returns (fun T => wetland_OCS T (Some (py 20))) (-5) y /\ 0 < y.
Proof.
  assert (HT : -273.15 <= -5) by lra.
  destruct wetland_is_production as (Hsame & _ & _ & Hpos).
  split.
  - exact (Hsame (py (-5)) (Some (py 20))).
  - exact (Hpos (Some (py 20)) (-5) HT).
Defined.

(** C1: for each of the five gated functions, a scalar temperature [T <= 0]
    (zero itself included) with any moisture gives exactly [0.0]: only the
    branch behind the strict test [T > 0] computes a flux. *)
Theorem gate_closed_at_or_below_zero (T soilw : value) :
  scalar_le_zero T ->
  grass_soil_OCS T soilw = Ok (py 0)
  /\ bforest_soil_OCS T soilw = Ok (py 0)
  /\ tforest_soil_OCS T soilw = Ok (py 0)
  /\ tropforest_soil_OCS T soilw = Ok (py 0)
  /\ ag_soil_OCS T soilw = Ok (py 0).
Proof.
  intros [S L].
  assert (G : np_isscalar T && scalar_gt T (Fin 0) = false).
  { destruct T as [x | x | xs]; simpl in *;
      try (now apply F64Facts.le_zero_not_gt); discriminate. }
  unfold grass_soil_OCS, bforest_soil_OCS, tforest_soil_OCS,
    tropforest_soil_OCS, ag_soil_OCS.
  rewrite G, S. simpl. repeat split.
Qed.

Lemma gate_closed_at_or_below_zero_witness :
  scalar_le_zero (py 0)
  /\ scalar_le_zero (py (-5))
  /\ grass_soil_OCS (py 0) (py 20) = Ok (py 0)
  /\ grass_soil_OCS (py (-5)) (py 20) = Ok (py 0).
Proof.
  assert (H0 : scalar_le_zero (py 0)).
  { split; [reflexivity |]. simpl. destruct (Rle_dec 0 0); [reflexivity | lra]. }
  assert (H5 : scalar_le_zero (py (-5))).
  { split; [reflexivity |]. simpl. destruct (Rle_dec (-5) 0); [reflexivity | lra]. }
  split; [exact H0 |]. split; [exact H5 |]. split.
  - exact (proj1 (gate_closed_at_or_below_zero (py 0) (py 20) H0)).
  - exact (proj1 (gate_closed_at_or_below_zero (py (-5)) (py 20) H5)).
Defined.

(** C10: for each of the five gated functions a scalar [nan] temperature,
    as a Python float or as a numpy scalar and with any moisture, gives
    exactly [0.0]: [nan > 0.0] is false, so the scalar path does not let the
    [nan] through. *)
Theorem gate_closed_at_nan (soilw : value) :
  (grass_soil_OCS (PyFloat NaN) soilw = Ok (py 0)
   /\ bforest_soil_OCS (PyFloat NaN) soilw = Ok (py 0)
   /\ tforest_soil_OCS (PyFloat NaN) soilw = Ok (py 0)
   /\ tropforest_soil_OCS (PyFloat NaN) soilw = Ok (py 0)
   /\ ag_soil_OCS (PyFloat NaN) soilw = Ok (py 0))
  /\ (grass_soil_OCS (NpFloat NaN) soilw = Ok (py 0)
      /\ bforest_soil_OCS (NpFloat NaN) soilw = Ok (py 0)
      /\ tforest_soil_OCS (NpFloat NaN) soilw = Ok (py 0)
      /\ tropforest_soil_OCS (NpFloat NaN) soilw = Ok (py 0)
      /\ ag_soil_OCS (NpFloat NaN) soilw = Ok (py 0)).
Proof. repeat split. Qed.

(** What [curve_shape_a] and [flux_at_all_theta] return on reals for which
    both logarithms of the shape exponent exist. *)
Lemma curve_shape_a_real (vo vf vg vt : value) (o f g t : R) :
  holds vo o -> holds vf f -> holds vg g -> holds vt t ->
  0 < o / f -> 0 < t / g -> g <> t ->
  curve_shape_a vo vf vg vt = Ok (NpFloat (Fin (spec_shape o f g t))).
Proof.
  intros Ho Hf Hg Ht Hr Hq Hne.
  destruct (div_pos_nonzero o f Hr) as [_ Nf].
  destruct (div_pos_nonzero t g Hq) as [Nt Ng].
  destruct (holds_scalar _ _ Ho) as [So Eo], (holds_scalar _ _ Hf) as [Sf Ef],
    (holds_scalar _ _ Hg) as [Sg Eg], (holds_scalar _ _ Ht) as [St Et].
  rewrite curve_shape_a_scalar; try assumption;
    try (eapply holds_no_zero_div; eassumption).
  rewrite Eo, Ef, Eg, Et. now rewrite shape_F_real.
Qed.

Lemma flux_at_all_theta_response (vth vo vf vg vt : value) (o f g t : R) :
  np_isscalar vth = true ->
  holds vo o -> holds vf f -> holds vg g -> holds vt t ->
  0 < o / f -> 0 < t / g -> g <> t ->
  flux_at_all_theta vth vo vf vg vt
  = Ok (NpFloat (response_F (F64.div (scalar_of vth) (Fin t)) (Fin o)
                   (Fin (spec_shape o f g t)))).
Proof.
  intros Sth Ho Hf Hg Ht Hr Hq Hne.
  destruct (div_pos_nonzero o f Hr) as [_ Nf].
  destruct (div_pos_nonzero t g Hq) as [Nt Ng].
  destruct (holds_scalar _ _ Ho) as [So Eo], (holds_scalar _ _ Hf) as [Sf Ef],
    (holds_scalar _ _ Hg) as [Sg Eg], (holds_scalar _ _ Ht) as [St Et].
  rewrite flux_at_all_theta_scalar; try assumption;
    try (eapply holds_no_zero_div; eassumption).
  rewrite Eo, Ef, Eg, Et. unfold curve_F. now rewrite shape_F_real.
Qed.

Lemma flux_at_all_theta_real (vth vo vf vg vt : value) (th o f g t : R) :
  holds vth th -> holds vo o -> holds vf f -> holds vg g -> holds vt t ->
  0 < o / f -> 0 < t / g -> g <> t -> 0 < th / t ->
  flux_at_all_theta vth vo vf vg vt = Ok (NpFloat (Fin (spec_curve th o f g t))).
Proof.
  intros Hth Ho Hf Hg Ht Hr Hq Hne Hpos.
  destruct (holds_scalar _ _ Hth) as [Sth Eth].
  destruct (div_pos_nonzero t g Hq) as [Nt _].
  rewrite (flux_at_all_theta_response vth vo vf vg vt o f g t) by assumption.
  rewrite Eth, F64Facts.div_fin by assumption.
  now rewrite response_F_real.
Qed.

Lemma mul_minus_one (a : float64) : F64.mul (Fin (-1)) a = F64.neg a.
Proof.
  destruct a as [x | | |]; simpl; try reflexivity.
  - f_equal. ring.
  - rewrite F64Facts.Rzero_false, F64Facts.Rpos_false by lra. reflexivity.
  - rewrite F64Facts.Rzero_false, F64Facts.Rpos_false by lra. reflexivity.
Qed.

(** The code multiplies the exponent by [-1] where the specification negates
    it; the two are the same operation on every value. *)
Lemma response_F_spec (th o t a : float64) :
  response_F (F64.div th t) o a = spec_response_F th o t a.
Proof. unfold response_F, spec_response_F. now rewrite mul_minus_one. Qed.

(** Over the reals, multiplying by the reciprocal of the denominator is the
    quotient of section 4.1. *)
Lemma shape_R_spec (o f g t : R) :
  0 < t / g -> g <> t ->
  ln (t / g) + (g / t - 1) <> 0 /\ shape_R o f g t = spec_shape o f g t.
Proof.
  intros Hq Hne. pose proof (shape_denominator g t Hq Hne) as HD.
  split; [lra |].
  unfold shape_R, spec_shape.
  replace (ln (t / g) + (g / t - 1)) with (ln (t / g) + g / t - 1) by ring.
  unfold Rdiv. ring.
Qed.

(** C4: on scalars that cause no division of a Python float by a zero
    Python float, [curve_shape_a] evaluates
    [ln (opt_flux / flux_at_theta_g)
     * (1 / (ln (theta_opt / theta_g) + (theta_g / theta_opt - 1)))]
    and [flux_at_all_theta] evaluates
    [opt_flux * (theta / theta_opt) ^ a * exp (- a * (theta / theta_opt - 1))]
    with [a] the number [curve_shape_a] returned, each with one binary64
    operation per operator.  Over the reals the first expression is the
    quotient
    [ln (opt_flux / flux_at_theta_g)
     / (ln (theta_opt / theta_g) + theta_g / theta_opt - 1)]
    of the specification, whose denominator is not zero when
    [theta_opt / theta_g > 0] and [theta_g <> theta_opt]. *)
Theorem curve_formulas (vo vf vg vt : value) :
  np_isscalar vo = true -> np_isscalar vf = true ->
  np_isscalar vg = true -> np_isscalar vt = true ->
  no_zero_div vo vf -> no_zero_div vt vg -> no_zero_div vg vt ->
  exists a : float64,
    curve_shape_a vo vf vg vt = Ok (NpFloat a)
    /\ a = shape_F (scalar_of vo) (scalar_of vf) (scalar_of vg) (scalar_of vt)
    /\ (forall vth : value,
           np_isscalar vth = true -> no_zero_div vth vt ->
           flux_at_all_theta vth vo vf vg vt
           = Ok (NpFloat (spec_response_F (scalar_of vth) (scalar_of vo)
                            (scalar_of vt) a)))
    /\ (forall o f g t : R,
           0 < o / f -> 0 < t / g -> g <> t ->
           ln (t / g) + (g / t - 1) <> 0
           /\ shape_R o f g t = spec_shape o f g t).
Proof.
  intros So Sf Sg St Zof Ztg Zgt.
  exists (shape_F (scalar_of vo) (scalar_of vf) (scalar_of vg) (scalar_of vt)).
  split; [now apply curve_shape_a_scalar |]. split; [reflexivity |]. split.
  - intros vth Sth Ztht.
    rewrite flux_at_all_theta_scalar by assumption.
    unfold curve_F. now rewrite response_F_spec.
  - intros o f g t _ Hq Hne. now apply shape_R_spec.
Qed.

Lemma curve_formulas_witness :
  exists a : float64,
    curve_shape_a (py (-4.5)) (py (-1.48268657)) (py 25) (py 10.86745456)
    = Ok (NpFloat a)
    /\ flux_at_all_theta (py 20) (py (-4.5)) (py (-1.48268657)) (py 25)
         (py 10.86745456)
       = Ok (NpFloat (spec_response_F (Fin 20) (Fin (-4.5)) (Fin 10.86745456) a)).
Proof.
  assert (Z1 : no_zero_div (py (-4.5)) (py (-1.48268657)))
    by (apply no_zero_div_literal; lra).
  assert (Z2 : no_zero_div (py 10.86745456) (py 25))
    by (apply no_zero_div_literal; lra).
  assert (Z3 : no_zero_div (py 25) (py 10.86745456))
    by (apply no_zero_div_literal; lra).
  assert (Z4 : no_zero_div (py 20) (py 10.86745456))
    by (apply no_zero_div_literal; lra).
  destruct (curve_formulas (py (-4.5)) (py (-1.48268657)) (py 25)
              (py 10.86745456) eq_refl eq_refl eq_refl eq_refl Z1 Z2 Z3)
    as (a & Ha & _ & Hcurve & _).
  exists a. split; [exact Ha |].
  exact (Hcurve (py 20) eq_refl Z4).
Defined.

(** With a finite exponent the response at the moisture ratio [t / t] is the
    optimum flux itself: the ratio is [1], [1 ** a] is [1] and
    [exp (-1 * a * 0)] is [1]. *)
Lemma response_F_at_optimum (o : float64) (t a : R) :
  t <> 0 -> response_F (F64.div (Fin t) (Fin t)) o (Fin a) = o.
Proof.
  intros Ht. unfold response_F.
  rewrite F64Facts.div_fin by exact Ht.
  replace (t / t) with 1 by (field; exact Ht).
  rewrite F64Facts.pow_one.
  unfold F64.sub. cbn [F64.neg F64.add F64.mul F64.exp].
  replace (-1 * a * (1 + - (1))) with 0 by ring. rewrite exp_0.
  assert (M : forall x : float64, F64.mul x (Fin 1) = x).
  { intros [x | | |]; simpl; try reflexivity.
    - f_equal. ring.
    - rewrite F64Facts.Rzero_false, F64Facts.Rpos_true by lra. reflexivity.
    - rewrite F64Facts.Rzero_false, F64Facts.Rpos_true by lra. reflexivity. }
  now rewrite !M.
Qed.

(** The rest of [flux_at_all_theta] once [curve_shape_a] has returned a
    finite exponent, at the optimum moisture. *)
Lemma flux_at_optimum_finite (vth vo vf vg vt : value) (t a : R) :
  np_isscalar vo = true ->
  holds vth t -> holds vt t -> t <> 0 ->
  curve_shape_a vo vf vg vt = Ok (NpFloat (Fin a)) ->
  flux_at_all_theta vth vo vf vg vt = Ok (NpFloat (scalar_of vo)).
Proof.
  intros So Hth Ht Nt Ha.
  pose proof (response_F_at_optimum (scalar_of vo) t a Nt) as E.
  unfold response_F in E.
  unfold flux_at_all_theta. rewrite Ha. cbn [bind].
  destruct Hth as [-> | ->], Ht as [-> | ->];
    destruct vo as [o | o | os]; try discriminate;
    cbn [py py_truediv py_pow py_mul py_sub lift2 bind np_exp ufunc
           F64.is_zero scalar_of] in *;
    rewrite ?(F64Facts.Rzero_false t) by exact Nt;
    cbn [py bind py_pow py_mul py_sub lift2 np_exp ufunc];
    now rewrite E.
Qed.

(** C5: whenever the shape parameters are valid, in that [curve_shape_a]
    returns a finite exponent for them, [flux_at_all_theta] at
    [all_theta = theta_opt], with [theta_opt > 0], returns [opt_flux]
    itself. *)
Theorem flux_at_optimum_moisture (vth vo vf vg vt : value) (t a : R) :
  np_isscalar vo = true ->
  holds vth t -> holds vt t -> 0 < t ->
  curve_shape_a vo vf vg vt = Ok (NpFloat (Fin a)) ->
  flux_at_all_theta vth vo vf vg vt = Ok (NpFloat (scalar_of vo)).
Proof.
  intros So Hth Ht Tpos Ha.
  apply (flux_at_optimum_finite vth vo vf vg vt t a); try assumption. lra.
Qed.

Lemma flux_at_optimum_moisture_witness :
  flux_at_all_theta (py 12.5) (py (-9.7)) (py (-5.36)) (py 22) (py 12.5)
  = Ok (NpFloat (Fin (-9.7))).
Proof.
  assert (Hr : 0 < -9.7 / -5.36) by (apply Rdiv_neg_neg; lra).
  assert (Hq : 0 < 12.5 / 22) by (apply Rdiv_lt_0_compat; lra).
  assert (Hne : 22 <> 12.5) by lra.
  assert (Tpos : 0 < 12.5) by lra.
  exact (flux_at_optimum_moisture (py 12.5) (py (-9.7)) (py (-5.36)) (py 22)
           (py 12.5) 12.5 (spec_shape (-9.7) (-5.36) 22 12.5)
           eq_refl (or_introl eq_refl) (or_introl eq_refl) Tpos
           (curve_shape_a_real (py (-9.7)) (py (-5.36)) (py 22) (py 12.5)
              (-9.7) (-5.36) 22 12.5
              (or_introl eq_refl) (or_introl eq_refl) (or_introl eq_refl)
              (or_introl eq_refl) Hr Hq Hne)).
Defined.

(** C9: negating both fluxes leaves [curve_shape_a] unchanged.  For Python
    floats this holds for all values, special ones included (a zero
    [flux_at_theta_g] raises before and after).  For scalars of any kind it
    holds whenever [flux_at_theta_g] is not zero; the quotient by a numpy
    zero depends on the sign of that zero, which this model does not carry. *)
Theorem curve_shape_a_negate (o f : float64) (g t : value) :
  curve_shape_a (PyFloat (F64.neg o)) (PyFloat (F64.neg f)) g t
  = curve_shape_a (PyFloat o) (PyFloat f) g t
  /\ (F64.is_zero f = false ->
      forall vo vf : value,
        np_isscalar vo = true -> np_isscalar vf = true ->
        scalar_of vo = o -> scalar_of vf = f ->
        curve_shape_a (py_neg vo) (py_neg vf) g t = curve_shape_a vo vf g t).
Proof.
  assert (Z : F64.is_zero (F64.neg f) = F64.is_zero f).
  { destruct f as [y | | |]; simpl; try reflexivity.
    unfold F64.Rzero. destruct (Req_dec_T (- y) 0), (Req_dec_T y 0);
      reflexivity || lra. }
  assert (D : F64.is_zero f = false ->
              F64.div (F64.neg o) (F64.neg f) = F64.div o f).
  { intros Hz. destruct o as [x | | |], f as [y | | |]; simpl in *;
      try reflexivity.
    - assert (Hy : y <> 0).
      { intros ->. now rewrite F64Facts.Rzero_true in Hz. }
      rewrite !F64Facts.Rzero_false by lra. f_equal. field. exact Hy.
    - unfold F64.Rneg. destruct (Rlt_dec (- y) 0), (Rlt_dec y 0);
        try reflexivity; try lra.
      exfalso. assert (y = 0) by lra. subst y.
      now rewrite F64Facts.Rzero_true in Hz.
    - unfold F64.Rneg. destruct (Rlt_dec (- y) 0), (Rlt_dec y 0);
        try reflexivity; try lra.
      exfalso. assert (y = 0) by lra. subst y.
      now rewrite F64Facts.Rzero_true in Hz. }
  split.
  - unfold curve_shape_a. cbn [py_truediv]. rewrite Z.
    destruct (F64.is_zero f) eqn:Hz; [reflexivity |]. now rewrite D.
  - intros Hz vo vf So Sf Eo Ef. unfold curve_shape_a.
    destruct vo as [x | x | xs], vf as [y | y | ys]; try discriminate;
      simpl in Eo, Ef; subst x y; cbn [py_neg py_truediv lift2];
      rewrite ?Z, ?Hz, D by exact Hz; reflexivity.
Qed.

Lemma curve_shape_a_negate_witness :
  F64.is_zero (Fin (-1.5)) = false
  /\ curve_shape_a (py_neg (NpFloat (Fin (-4.5)))) (py_neg (NpFloat (Fin (-1.5))))
       (py 25) (py 10)
     = curve_shape_a (NpFloat (Fin (-4.5))) (NpFloat (Fin (-1.5))) (py 25) (py 10).
Proof.
  assert (Hz : F64.is_zero (Fin (-1.5)) = false)
    by (apply F64Facts.Rzero_false; lra).
  split; [exact Hz |].
  exact (proj2 (curve_shape_a_negate (Fin (-4.5)) (Fin (-1.5)) (py 25) (py 10))
           Hz (NpFloat (Fin (-4.5))) (NpFloat (Fin (-1.5)))
           eq_refl eq_refl eq_refl eq_refl).
Defined.

(** ** Degenerate shapes *)

Lemma mul_PInf_non_finite (a : float64) : non_finite (F64.mul a PInf).
Proof.
  destruct a as [x | | |]; unfold non_finite; simpl; try reflexivity.
  destruct (F64.Rzero x); [reflexivity |].
  now destruct (F64.Rpos x).
Qed.

Lemma mul_NaN_r (a : float64) : F64.mul a NaN = NaN.
Proof. now destruct a. Qed.

Lemma mul_NInf_l_non_finite (b : float64) : non_finite (F64.mul NInf b).
Proof.
  destruct b as [y | | |]; unfold non_finite; simpl; try reflexivity.
  destruct (F64.Rzero y); [reflexivity |].
  now destruct (F64.Rpos y).
Qed.

Lemma mul_zero_non_finite (a : float64) :
  non_finite a -> non_finite (F64.mul a (Fin 0)).
Proof.
  destruct a as [x | | |]; unfold non_finite; simpl; try discriminate;
    intros _; try reflexivity; now rewrite F64Facts.Rzero_true.
Qed.

(** A ratio at most zero, or coinciding moistures, make the exponent [nan]
    or an infinity. *)
Lemma shape_F_degenerate (o f g t : float64) :
  degenerate o f g t -> non_finite (shape_F o f g t).
Proof.
  unfold shape_F. intros [Hle | ->].
  - destruct (F64.div o f) as [x | | |]; simpl in Hle; try discriminate.
    + destruct (Rle_dec x 0) as [Hx | Hx]; [| discriminate].
      unfold F64.log. rewrite F64Facts.Rpos_false by exact Hx.
      destruct (F64.Rzero x); [apply mul_NInf_l_non_finite | reflexivity].
    + reflexivity.
  - assert (H : F64.div (Fin 1)
                  (F64.add (F64.log (F64.div t t)) (F64.sub (F64.div t t) (Fin 1)))
                = PInf
                \/ F64.div (Fin 1)
                     (F64.add (F64.log (F64.div t t))
                        (F64.sub (F64.div t t) (Fin 1)))
                   = NaN).
    { destruct t as [x | | |]; try (right; reflexivity).
      destruct (Req_dec_T x 0) as [-> | Hx].
      - right. simpl. now rewrite F64Facts.Rzero_true.
      - left. rewrite F64Facts.div_fin by exact Hx.
        replace (x / x) with 1 by (field; exact Hx).
        rewrite F64Facts.log_pos by lra. rewrite ln_1.
        unfold F64.sub. cbn [F64.neg F64.add F64.div].
        rewrite F64Facts.Rzero_true by lra.
        rewrite F64Facts.Rzero_false by lra.
        now rewrite F64Facts.Rpos_true by lra. }
    destruct H as [-> | ->]; [apply mul_PInf_non_finite |].
    now rewrite mul_NaN_r.
Qed.

(** With such an exponent the response at a moisture ratio that is not
    negative is [nan] or an infinity as well. *)
Lemma response_F_non_finite (r o a : float64) :
  non_finite a -> F64.le (Fin 0) r = true -> non_finite (response_F r o a).
Proof.
  intros Ha Hr. unfold response_F.
  destruct a as [y | | |]; try discriminate.
  - (* a = +inf *)
    assert (M : F64.mul (Fin (-1)) PInf = NInf).
    { simpl. rewrite F64Facts.Rzero_false, F64Facts.Rpos_false by lra.
      reflexivity. }
    rewrite M. destruct r as [x | | |]; try discriminate.
    + simpl in Hr. destruct (Rle_dec 0 x) as [Hx | Hx]; [| discriminate].
      unfold F64.sub. cbn [F64.neg F64.add].
      destruct (Rtotal_order x 1) as [Hlt | [-> | Hgt]].
      * assert (E : F64.mul NInf (Fin (x + - (1))) = PInf).
        { simpl. rewrite F64Facts.Rzero_false, F64Facts.Rpos_false by lra.
          reflexivity. }
        rewrite E. apply mul_PInf_non_finite.
      * assert (E : F64.mul NInf (Fin (1 + - (1))) = NaN).
        { simpl. now rewrite F64Facts.Rzero_true by lra. }
        rewrite E. cbn [F64.exp]. now rewrite mul_NaN_r.
      * assert (E : F64.mul NInf (Fin (x + - (1))) = NInf).
        { simpl. rewrite F64Facts.Rzero_false, F64Facts.Rpos_true by lra.
          reflexivity. }
        rewrite E. cbn [F64.exp].
        assert (Pw : F64.pow (Fin x) PInf = PInf).
        { unfold F64.pow. cbn [F64.is_zero F64.abs_cmp_one].
          destruct (Req_dec_T x 1); [lra |].
          rewrite Rabs_right by lra.
          destruct (Rlt_dec x 1); [lra |].
          destruct (Req_dec_T x 1); [lra | reflexivity]. }
        rewrite Pw. apply mul_zero_non_finite, mul_PInf_non_finite.
    + cbn [F64.sub F64.neg F64.add F64.mul F64.mul_inf F64.inf negb F64.exp
             F64.pow F64.is_zero].
      apply mul_zero_non_finite, mul_PInf_non_finite.
  - (* a = -inf *)
    assert (M : F64.mul (Fin (-1)) NInf = PInf).
    { simpl. rewrite F64Facts.Rzero_false, F64Facts.Rpos_false by lra.
      reflexivity. }
    rewrite M. destruct r as [x | | |]; try discriminate.
    + simpl in Hr. destruct (Rle_dec 0 x) as [Hx | Hx]; [| discriminate].
      unfold F64.sub. cbn [F64.neg F64.add].
      destruct (Rtotal_order x 1) as [Hlt | [-> | Hgt]].
      * assert (E : F64.mul PInf (Fin (x + - (1))) = NInf).
        { simpl. rewrite F64Facts.Rzero_false, F64Facts.Rpos_false by lra.
          reflexivity. }
        rewrite E. cbn [F64.exp].
        assert (Pw : F64.pow (Fin x) NInf = PInf).
        { unfold F64.pow. cbn [F64.is_zero F64.abs_cmp_one].
          destruct (Req_dec_T x 1); [lra |].
          rewrite Rabs_right by lra.
          destruct (Rlt_dec x 1); [reflexivity | lra]. }
        rewrite Pw. apply mul_zero_non_finite, mul_PInf_non_finite.
      * assert (E : F64.mul PInf (Fin (1 + - (1))) = NaN).
        { simpl. now rewrite F64Facts.Rzero_true by lra. }
        rewrite E. cbn [F64.exp]. now rewrite mul_NaN_r.
      * assert (E : F64.mul PInf (Fin (x + - (1))) = PInf).
        { simpl. rewrite F64Facts.Rzero_false, F64Facts.Rpos_true by lra.
          reflexivity. }
        rewrite E. apply mul_PInf_non_finite.
    + cbn [F64.sub F64.neg F64.add F64.mul F64.mul_inf F64.inf negb F64.exp].
      apply mul_PInf_non_finite.
  - (* a = nan *)
    cbn [F64.mul F64.exp]. now rewrite mul_NaN_r.
Qed.

(** ** Each biome on numpy scalars and on arrays *)

(** From a uniform description to the array form. *)
Ltac array_fact lem :=
  let c := fresh "c" in
  let E := fresh "E" in
  let R := fresh "R" in
  let K := fresh "K" in
  let S := fresh "S" in
  intros l;
  edestruct (lem _ l) as (c & E & R & K & S);
  [ first [ apply Rep_arr | reflexivity ] .. | ];
  rewrite E; f_equal; exact (Rep_array l c _ R S).

(** From a uniform description to the numpy-scalar form. *)
Ltac scalar_fact lem :=
  let c := fresh "c" in
  let E := fresh "E" in
  let R := fresh "R" in
  let K := fresh "K" in
  let S := fresh "S" in
  intros;
  edestruct (lem unit (@nil unit)) as (c & E & R & K & S);
  [ first [ apply Rep_np | reflexivity ] .. | ];
  rewrite E; f_equal; exact (Rep_np_scalar (@nil unit) c _ tt R S K).

Lemma grass_uptake_array (l : list (float64 * float64)) :
  grass_uptake (NdArray (map fst l)) (NdArray (map snd l))
  = Ok (NdArray (map (fun p => grass_uptake_F (fst p) (snd p)) l)).
Proof. revert l. array_fact @grass_uptake_Rep. Qed.

Lemma grass_uptake_scalar (t sw : float64) :
  grass_uptake (NpFloat t) (NpFloat sw) = Ok (NpFloat (grass_uptake_F t sw)).
Proof. scalar_fact @grass_uptake_Rep. Qed.

Lemma boreal_uptake_array (l : list (float64 * float64)) :
  boreal_uptake (NdArray (map fst l)) (NdArray (map snd l))
  = Ok (NdArray (map (fun p => boreal_uptake_F (fst p) (snd p)) l)).
Proof. revert l. array_fact @boreal_uptake_Rep. Qed.

Lemma boreal_uptake_scalar (t sw : float64) :
  boreal_uptake (NpFloat t) (NpFloat sw) = Ok (NpFloat (boreal_uptake_F t sw)).
Proof. scalar_fact @boreal_uptake_Rep. Qed.

Lemma temperate_uptake_array (l : list (float64 * float64)) :
  temperate_uptake (NdArray (map fst l)) (NdArray (map snd l))
  = Ok (NdArray (map (fun p => temperate_uptake_F (fst p) (snd p)) l)).
Proof. revert l. array_fact @temperate_uptake_Rep. Qed.

Lemma temperate_uptake_scalar (t sw : float64) :
  temperate_uptake (NpFloat t) (NpFloat sw) = Ok (NpFloat (temperate_uptake_F t sw)).
Proof. scalar_fact @temperate_uptake_Rep. Qed.

Lemma tropical_uptake_array (l : list (float64 * float64)) :
  tropical_uptake (NdArray (map fst l)) (NdArray (map snd l))
  = Ok (NdArray (map (fun p => tropical_uptake_F (fst p) (snd p)) l)).
Proof. revert l. array_fact @tropical_uptake_Rep. Qed.

Lemma tropical_uptake_scalar (t sw : float64) :
  tropical_uptake (NpFloat t) (NpFloat sw) = Ok (NpFloat (tropical_uptake_F t sw)).
Proof. scalar_fact @tropical_uptake_Rep. Qed.

Lemma ag_uptake_array (l : list (float64 * float64)) :
  ag_uptake (NdArray (map fst l)) (NdArray (map snd l))
  = Ok (NdArray (map (fun p => ag_uptake_F (fst p) (snd p)) l)).
Proof. revert l. array_fact @ag_uptake_Rep. Qed.

Lemma ag_uptake_scalar (t sw : float64) :
  ag_uptake (NpFloat t) (NpFloat sw) = Ok (NpFloat (ag_uptake_F t sw)).
Proof. scalar_fact @ag_uptake_Rep. Qed.

Lemma OCS_rainforest_production_array (l : list (float64 * float64)) :
  OCS_rainforest_production (NdArray (map fst l))
  = Ok (NdArray (map (fun p => logistic_F (2.7 * 3) 0.123581 205 (fst p)) l)).
Proof. revert l. array_fact @OCS_rainforest_production_Rep. Qed.

Lemma OCS_rainforest_production_scalar (t : float64) :
  OCS_rainforest_production (NpFloat t) = Ok (NpFloat (logistic_F (2.7 * 3) 0.123581 205 t)).
Proof. scalar_fact @OCS_rainforest_production_Rep. Qed.

Lemma OCS_forest_production_array (l : list (float64 * float64)) :
  OCS_forest_production (NdArray (map fst l))
  = Ok (NdArray (map (fun p => logistic_F 20 0.160745 644.7 (fst p)) l)).
Proof. revert l. array_fact @OCS_forest_production_Rep. Qed.

Lemma OCS_forest_production_scalar (t : float64) :
  OCS_forest_production (NpFloat t) = Ok (NpFloat (logistic_F 20 0.160745 644.7 t)).
Proof. scalar_fact @OCS_forest_production_Rep. Qed.

Lemma OCS_ag_production_array (l : list (float64 * float64)) :
  OCS_ag_production (NdArray (map fst l))
  = Ok (NdArray (map (fun p => logistic_F 83 0.087689 146.9 (fst p)) l)).
Proof. revert l. array_fact @OCS_ag_production_Rep. Qed.

Lemma OCS_ag_production_scalar (t : float64) :
  OCS_ag_production (NpFloat t) = Ok (NpFloat (logistic_F 83 0.087689 146.9 t)).
Proof. scalar_fact @OCS_ag_production_Rep. Qed.

Lemma OCS_grass_production_array (l : list (float64 * float64)) :
  OCS_grass_production (NdArray (map fst l))
  = Ok (NdArray (map (fun p => logistic_F 3.9 0.115481 286 (fst p)) l)).
Proof. revert l. array_fact @OCS_grass_production_Rep. Qed.

Lemma OCS_grass_production_scalar (t : float64) :
  OCS_grass_production (NpFloat t) = Ok (NpFloat (logistic_F 3.9 0.115481 286 t)).
Proof. scalar_fact @OCS_grass_production_Rep. Qed.




(** A zero [flux_at_theta_g], and moistures that are both zero, handed over
    as Python floats make [curve_shape_a] raise [ZeroDivisionError]. *)
Lemma zero_divisor_raises :
  curve_shape_a (py 1) (py 0) (py 25) (py 10) = Raise ZeroDivisionError
  /\ curve_shape_a (py 1) (py 2) (py 0) (py 0) = Raise ZeroDivisionError.
Proof.
  split; unfold curve_shape_a, py; cbn [py_truediv F64.is_zero].
  - now rewrite (F64Facts.Rzero_true 0).
  - rewrite (F64Facts.Rzero_false 2) by lra. cbn [bind].
    now rewrite (F64Facts.Rzero_true 0).
Qed.

(** Where the linear fit of the temperate forest is zero the flux ratio is
    an infinity and the uptake is [nan], at any moisture. *)
Lemma temperate_uptake_F_zero_fit (T sw : float64) :
  F64.is_zero (temperate_fit T) = true -> temperate_uptake_F T sw = NaN.
Proof.
  intros Z. unfold temperate_uptake_F.
  change (F64.add (F64.mul (Fin (-0.17629655)) T) (Fin 0.47914552))
    with (temperate_fit T).
  destruct (temperate_fit T) as [x | | |]; try discriminate.
  cbn [F64.is_zero] in Z.
  assert (S : shape_F (Fin (-12.6)) (Fin x) (Fin 51) (Fin 24.6) = NaN).
  { unfold shape_F. cbn [F64.div]. rewrite Z.
    rewrite (F64Facts.Rzero_false (-12.6)), (F64Facts.Rpos_false (-12.6)) by lra.
    reflexivity. }
  unfold curve_F. rewrite S. unfold response_F. cbn [F64.mul F64.exp].
  apply mul_NaN_r.
Qed.

(** C8: the claim fails on the code.  At a temperature above the gate where
    the linear fit [-0.17629655 * T + 0.47914552] of the temperate forest
    evaluates to zero, [tforest_soil_OCS] called with a Python float raises
    [ZeroDivisionError] ([curve_shape_a] divides the Python float [-12.6]
    by the fit), whatever the moisture is; called with the same number as a
    numpy scalar, or in an array, it returns [nan]. *)
Theorem python_float_zero_fit_raises (T : float64) (vSW : value) :
  F64.gt T (Fin 0) = true -> F64.is_zero (temperate_fit T) = true ->
  tforest_soil_OCS (PyFloat T) vSW = Raise ZeroDivisionError
  /\ (np_isscalar vSW = true ->
      tforest_soil_OCS (NpFloat T) vSW = Ok (NpFloat NaN))
  /\ (forall sw : float64,
         tforest_soil_OCS (NdArray [T]) (NdArray [sw]) = Ok (NdArray [NaN])).
Proof.
  intros G Z. split; [| split].
  - unfold tforest_soil_OCS. cbn [np_isscalar scalar_gt andb]. rewrite G.
    unfold temperate_uptake, temperate_opt_uptake, temperate_other_uptake.
    cbn [bind py py_mul py_add lift2].
    unfold flux_at_all_theta, curve_shape_a. cbn [py py_truediv].
    unfold temperate_fit in Z. now rewrite Z.
  - intros SS. rewrite tforest_soil_OCS_body.
    rewrite (soil_OCS_body_open _ _ (NpFloat T) vSW NaN
               (logistic_F 20 0.160745 644.7 T)).
    + reflexivity.
    + reflexivity.
    + exact G.
    + rewrite (temperate_uptake_any (NpFloat T) vSW eq_refl SS
                 (or_introl eq_refl)).
      cbn [scalar_of]. now rewrite temperate_uptake_F_zero_fit.
    + exact (OCS_forest_production_any (NpFloat T) eq_refl).
  - intros sw. rewrite tforest_soil_OCS_body.
    pose proof (soil_OCS_body_array temperate_uptake OCS_forest_production
                  temperate_uptake_F (logistic_F 20 0.160745 644.7)
                  temperate_uptake_array OCS_forest_production_array
                  [(T, sw)]) as H.
    cbn [map fst snd] in H. unfold gated_array_F in H.
    rewrite G, temperate_uptake_F_zero_fit in H by exact Z. exact H.
Qed.

Lemma python_float_zero_fit_raises_witness :
  tforest_soil_OCS (py (0.47914552 / 0.17629655)) (py 20)
  = Raise ZeroDivisionError
  /\ tforest_soil_OCS (NpFloat (Fin (0.47914552 / 0.17629655))) (py 20)
     = Ok (NpFloat NaN)
  /\ tforest_soil_OCS (NdArray [Fin (0.47914552 / 0.17629655)])
       (NdArray [Fin 20])
     = Ok (NdArray [NaN]).
Proof.
  assert (G : F64.gt (Fin (0.47914552 / 0.17629655)) (Fin 0) = true)
    by (apply F64Facts.gt_zero_fin; lra).
  assert (Z : F64.is_zero (temperate_fit (Fin (0.47914552 / 0.17629655)))
              = true).
  { unfold temperate_fit. cbn [F64.mul F64.add F64.is_zero].
    apply F64Facts.Rzero_true. lra. }
  destruct (python_float_zero_fit_raises (Fin (0.47914552 / 0.17629655))
              (py 20) G Z) as (H1 & H2 & H3).
  split; [exact H1 |]. split; [exact (H2 eq_refl) | exact (H3 (Fin 20))].
Defined.

(** C2: the claim fails on the code.  At a [nan] temperature, and at
    [-inf], the array path leaves [temperature * 0.0], which is [nan], where
    the scalar path returns [0.0] for the same position. *)
Theorem array_path_keeps_nan :
  grass_soil_OCS (NdArray [NaN]) (NdArray [Fin 10]) = Ok (NdArray [NaN])
  /\ grass_soil_OCS (NpFloat NaN) (NpFloat (Fin 10)) = Ok (PyFloat (Fin 0))
  /\ ~ elementwise grass_soil_OCS [NaN] [Fin 10]
  /\ grass_soil_OCS (NdArray [NInf]) (NdArray [Fin 10]) = Ok (NdArray [NaN])
  /\ grass_soil_OCS (NpFloat NInf) (NpFloat (Fin 10)) = Ok (PyFloat (Fin 0)).
Proof.
  assert (A1 : grass_soil_OCS (NdArray [NaN]) (NdArray [Fin 10])
               = Ok (NdArray [NaN])).
  { exact (soil_OCS_body_array grass_uptake OCS_grass_production grass_uptake_F
             (logistic_F 3.9 0.115481 286)
             grass_uptake_array OCS_grass_production_array [(NaN, Fin 10)]). }
  assert (A2 : grass_soil_OCS (NdArray [NInf]) (NdArray [Fin 10])
               = Ok (NdArray [NaN])).
  { pose proof (soil_OCS_body_array grass_uptake OCS_grass_production
                  grass_uptake_F (logistic_F 3.9 0.115481 286)
                  grass_uptake_array OCS_grass_production_array
                  [(NInf, Fin 10)]) as H.
    cbn [map fst snd gated_array_F F64.gt F64.mul F64.mul_inf] in H.
    rewrite F64Facts.Rzero_true in H by reflexivity. exact H. }
  repeat split; try assumption.
  intros (out & E & _ & H).
  rewrite A1 in E. injection E as <-.
  destruct (H 0%nat (Nat.lt_0_succ 0)) as (v & Ev & _ & Hv).
  cbn [nth] in Ev, Hv.
  change (grass_soil_OCS (NpFloat NaN) (NpFloat (Fin 10)))
    with (Ok (A := value) (PyFloat (Fin 0))) in Ev.
  injection Ev as <-. discriminate Hv.
Qed.

(** ** Moisture at the optimum *)

(** The uptake of a biome whose two temperature curves are bell curves, at
    the optimum moisture: the moisture curve returns the optimum uptake. *)
Lemma bell_uptake_at_optimum
  (T o1 f1 g1 t1 o2 f2 g2 t2 g t : R) :
  0 < T ->
  o1 < 0 -> f1 < 0 -> 0 < g1 -> 0 < t1 -> g1 <> t1 ->
  o2 < 0 -> f2 < 0 -> 0 < g2 -> 0 < t2 -> g2 <> t2 ->
  0 < g -> 0 < t -> g <> t ->
  curve_F (Fin t)
    (curve_F (Fin T) (Fin o1) (Fin f1) (Fin g1) (Fin t1))
    (curve_F (Fin T) (Fin o2) (Fin f2) (Fin g2) (Fin t2))
    (Fin g) (Fin t)
  = Fin (spec_curve T o1 f1 g1 t1).
Proof.
  intros HT Ho1 Hf1 Hg1 Ht1 Hne1 Ho2 Hf2 Hg2 Ht2 Hne2 Hg Ht Hne.
  rewrite (curve_F_real T o1 f1 g1 t1), (curve_F_real T o2 f2 g2 t2);
    try assumption;
    try (apply Rdiv_neg_neg; assumption);
    try (apply Rdiv_lt_0_compat; assumption).
  destruct (spec_curve_sign T o1 f1 g1 t1) as (k1 & Hk1 & E1).
  destruct (spec_curve_sign T o2 f2 g2 t2) as (k2 & Hk2 & E2).
  rewrite curve_F_real; try assumption.
  - now rewrite spec_curve_at_optimum by lra.
  - rewrite E1, E2. apply Rdiv_neg_neg; nra.
  - now apply Rdiv_lt_0_compat.
  - now apply Rdiv_lt_0_compat.
Qed.

Lemma gate_open (t : R) :
  0 < t -> np_isscalar (py t) && scalar_gt (py t) (Fin 0) = true.
Proof. intros H. cbn [py np_isscalar scalar_gt andb]. now apply F64Facts.gt_zero_fin. Qed.

(** C6: with the moisture at the optimum of the biome the moisture curve
    returns the optimum uptake, so that
    [grass_soil_OCS (20, 12.5) = grass_opt_uptake (20) + OCS_grass_production (20)]
    and [ag_soil_OCS (30, 17.7) = ag_opt_uptake () + OCS_ag_production (30)],
    each a finite number; the equalities are exact in this model, whose
    arithmetic on finite values does not round. *)
Theorem optimum_moisture_scenarios :
  (exists (u p : value) (x : R),
      grass_opt_uptake (py 20) = Ok u
      /\ OCS_grass_production (py 20) = Ok p
      /\ py_add u p = Ok (NpFloat (Fin x))
      /\ grass_soil_OCS (py 20) (py 12.5) = Ok (NpFloat (Fin x)))
  /\ (exists (u p : value) (x : R),
         ag_opt_uptake = Ok u
         /\ OCS_ag_production (py 30) = Ok p
         /\ py_add u p = Ok (NpFloat (Fin x))
         /\ ag_soil_OCS (py 30) (py 17.7) = Ok (NpFloat (Fin x))).
Proof.
  split.
  - exists (NpFloat (Fin (spec_curve 20 (-4.5) (-1.48268657) 25 10.86745456))),
      (NpFloat (Fin (spec_production 3.9 0.115481 286 20))),
      (spec_curve 20 (-4.5) (-1.48268657) 25 10.86745456
       + spec_production 3.9 0.115481 286 20).
    assert (Hp : OCS_grass_production (py 20)
                 = Ok (NpFloat (Fin (spec_production 3.9 0.115481 286 20)))).
    { apply (returns_of_Rep _ _ (OCS_grass_production_Rep nil)).
      apply logistic_F_real. lra. }
    assert (Hu : grass_uptake (py 20) (py 12.5)
                 = Ok (NpFloat
                         (Fin (spec_curve 20 (-4.5) (-1.48268657) 25 10.86745456)))).
    { destruct (grass_uptake_Rep (@nil unit) (py 20) (py 12.5) _ _
                  (Rep_literal nil 20) (Rep_literal nil 12.5))
        as (c & E & R & K & S).
      rewrite E. f_equal.
      rewrite (Rep_np_scalar (@nil unit) c _ tt R S K).
      f_equal. unfold grass_uptake_F. apply bell_uptake_at_optimum; lra. }
    repeat split.
    + unfold grass_opt_uptake.
      apply (flux_at_all_theta_real (py 20) (py (-4.5)) (py (-1.48268657))
               (py 25) (py 10.86745456) 20 (-4.5) (-1.48268657) 25 10.86745456);
        try (left; reflexivity); try lra;
        try (apply Rdiv_neg_neg; lra); apply Rdiv_lt_0_compat; lra.
    + exact Hp.
    + unfold grass_soil_OCS. rewrite gate_open by lra.
      rewrite Hu, Hp. reflexivity.
  - exists (py (-9.7)), (NpFloat (Fin (spec_production 83 0.087689 146.9 30))),
      (-9.7 + spec_production 83 0.087689 146.9 30).
    assert (Hp : OCS_ag_production (py 30)
                 = Ok (NpFloat (Fin (spec_production 83 0.087689 146.9 30)))).
    { apply (returns_of_Rep _ _ (OCS_ag_production_Rep nil)).
      apply logistic_F_real. lra. }
    assert (Hu : ag_uptake (py 30) (py 17.7) = Ok (NpFloat (Fin (-9.7)))).
    { unfold ag_uptake, ag_opt_uptake, ag_other_uptake. cbn [bind].
      rewrite (flux_at_all_theta_real (py 17.7) (py (-9.7)) (py (-5.36)) (py 22)
                 ag_opt_sw 17.7 (-9.7) (-5.36) 22 17.7);
        try (left; reflexivity); try lra;
        try (apply Rdiv_neg_neg; lra); try (apply Rdiv_lt_0_compat; lra).
      now rewrite spec_curve_at_optimum by lra. }
    repeat split.
    + exact Hp.
    + unfold ag_soil_OCS. rewrite gate_open by lra.
      rewrite Hu, Hp. reflexivity.
Qed.

(** * Further properties of the code *)

(** ** The response curve over the reals *)

Lemma ln_le_pred (r : R) : 0 < r -> ln r <= r - 1.
Proof.
  intros Hr. pose proof (exp_ineq1_le (ln r)) as H.
  rewrite exp_ln in H by assumption. lra.
Qed.

Lemma ln_lt_pred (r : R) : 0 < r -> r <> 1 -> ln r < r - 1.
Proof.
  intros Hr H1. pose proof (exp_ineq1 (ln r) (ln_neq_0 r H1 Hr)) as H.
  rewrite exp_ln in H by assumption. lra.
Qed.

(** The curve is the optimum flux times [exp (a * (ln r - (r - 1)))], with
    [r] the moisture ratio. *)
Lemma spec_curve_factor (th o f g t : R) :
  spec_curve th o f g t
  = o * exp (spec_shape o f g t * (ln (th / t) - (th / t - 1))).
Proof.
  unfold spec_curve, Rpower. cbv zeta.
  rewrite Rmult_assoc, <- exp_plus. do 2 f_equal. ring.
Qed.

(** The sign of the exponent is the sign of [ln (opt_flux / flux_at_theta_g)]. *)
Lemma spec_shape_sign (o f g t : R) :
  0 < o / f -> 0 < t / g -> g <> t ->
  (1 < o / f -> 0 < spec_shape o f g t)
  /\ (o / f < 1 -> spec_shape o f g t < 0)
  /\ (o / f = 1 -> spec_shape o f g t = 0).
Proof.
  intros Hr Hq Hne. pose proof (shape_denominator g t Hq Hne) as HD.
  unfold spec_shape. repeat split.
  - intros H. apply Rdiv_lt_0_compat; [| exact HD].
    rewrite <- ln_1. apply ln_increasing; lra.
  - intros H. assert (L : ln (o / f) < 0).
    { rewrite <- ln_1. now apply ln_increasing. }
    unfold Rdiv at 1. pose proof (Rinv_0_lt_compat _ HD). nra.
  - intros ->. rewrite ln_1. unfold Rdiv. ring.
Qed.

(** With a positive exponent the factor is at most one, and one only at the
    optimum. *)
Lemma response_factor_le_one (a r : R) :
  0 < a -> 0 < r ->
  0 < exp (a * (ln r - (r - 1))) <= 1
  /\ (exp (a * (ln r - (r - 1))) = 1 <-> r = 1).
Proof.
  intros Ha Hr. pose proof (ln_le_pred r Hr) as Hle.
  assert (Hx : a * (ln r - (r - 1)) <= 0) by nra.
  split; [split; [apply exp_pos |] |].
  - destruct Hx as [Hx | Hx].
    + left. pose proof (exp_increasing _ _ Hx) as L. now rewrite exp_0 in L.
    + right. rewrite Hx. apply exp_0.
  - split.
    + intros E. destruct (Req_dec_T r 1) as [H1 | H1]; [exact H1 |].
      pose proof (ln_lt_pred r Hr H1) as Hlt.
      assert (Hx' : a * (ln r - (r - 1)) < 0) by nra.
      pose proof (exp_increasing _ _ Hx') as L. rewrite exp_0 in L. lra.
    + intros ->. rewrite ln_1. replace (a * (0 - (1 - 1))) with 0 by ring.
      apply exp_0.
Qed.

Lemma ratio_gt_one_neg (o f : R) : o < f -> f < 0 -> 1 < o / f.
Proof.
  intros Hof Hf. replace (o / f) with (- o / - f) by (field; lra).
  apply (Rmult_lt_reg_r (- f)); [lra |].
  unfold Rdiv. rewrite Rmult_assoc, Rinv_l by lra. lra.
Qed.

(** ** The production curves *)

Lemma spec_production_at_zero (a k b : R) :
  spec_production a k b 0 = a / (1 + b).
Proof.
  unfold spec_production. rewrite Rmult_0_r, exp_0. now rewrite Rmult_1_r.
Qed.

(** X6: at [0] degrees each production curve passes through
    [a / (1 + b)], as the comment heading the curves says:
    [8.1 / 206], [20 / 645.7], [83 / 147.9], [3.9 / 287] and
    [295 / 42.16705972]. *)
Theorem production_at_zero :
  returns OCS_rainforest_production 0 (8.1 / (1 + 205))
  /\ returns OCS_forest_production 0 (20 / (1 + 644.7))
  /\ returns OCS_ag_production 0 (83 / (1 + 146.9))
  /\ returns OCS_grass_production 0 (3.9 / (1 + 286))
  /\ returns OCS_wetland_production 0 (295 / (1 + 41.16705972)).
Proof.
  split; [| split; [| split; [| split]]].
  - rewrite <- (spec_production_at_zero 8.1 0.123581 205).
    apply rainforest_production_returns.
  - rewrite <- (spec_production_at_zero 20 0.160745 644.7).
    apply forest_production_returns.
  - rewrite <- (spec_production_at_zero 83 0.087689 146.9).
    apply ag_production_returns.
  - rewrite <- (spec_production_at_zero 3.9 0.115481 286).
    apply grass_production_returns.
  - rewrite <- (spec_production_at_zero 295 0.07855407 41.16705972).
    apply wetland_production_returns.
Qed.

(** ** [flux_theta_g_constant] *)

Lemma flux_theta_g_constant_unfold (th o f t : value) :
  flux_theta_g_constant th o f t = flux_at_all_theta th o f CONSTANT_PARAM t.
Proof. reflexivity. Qed.

(** X7: [flux_theta_g_constant] is [flux_at_all_theta] with the reference
    moisture fixed at [CONSTANT_PARAM = 35], on all arguments, arrays
    included.  In particular, whenever [curve_shape_a] returns a finite
    exponent for the two fluxes, [35] and [theta_opt > 0], it returns
    [opt_flux] itself at [all_theta = theta_opt]. *)
Theorem flux_theta_g_constant_is_curve (vth vo vf vt : value) :
  flux_theta_g_constant vth vo vf vt
  = flux_at_all_theta vth vo vf CONSTANT_PARAM vt
  /\ (forall t a : R,
         np_isscalar vo = true -> holds vth t -> holds vt t -> 0 < t ->
         curve_shape_a vo vf CONSTANT_PARAM vt = Ok (NpFloat (Fin a)) ->
         flux_theta_g_constant vth vo vf vt = Ok (NpFloat (scalar_of vo))).
Proof.
  split; [reflexivity |].
  intros t a So Hth Ht Tpos Ha. rewrite flux_theta_g_constant_unfold.
  apply (flux_at_optimum_finite vth vo vf CONSTANT_PARAM vt t a);
    try assumption. lra.
Qed.

Lemma flux_theta_g_constant_is_curve_witness :
  flux_theta_g_constant (py 17.7) (py (-9.7)) (py (-5.36)) (py 17.7)
  = Ok (NpFloat (Fin (-9.7))).
Proof.
  assert (Hr : 0 < -9.7 / -5.36) by (apply Rdiv_neg_neg; lra).
  assert (Hq : 0 < 17.7 / 35) by (apply Rdiv_lt_0_compat; lra).
  assert (Hne : 35 <> 17.7) by lra.
  assert (Tpos : 0 < 17.7) by lra.
  exact (proj2 (flux_theta_g_constant_is_curve (py 17.7) (py (-9.7))
                  (py (-5.36)) (py 17.7))
           17.7 (spec_shape (-9.7) (-5.36) 35 17.7)
           eq_refl (or_introl eq_refl) (or_introl eq_refl) Tpos
           (curve_shape_a_real (py (-9.7)) (py (-5.36)) CONSTANT_PARAM (py 17.7)
              (-9.7) (-5.36) 35 17.7
              (or_introl eq_refl) (or_introl eq_refl) (or_introl eq_refl)
              (or_introl eq_refl) Hr Hq Hne)).
Defined.

(** X8: with [theta_opt] equal to [CONSTANT_PARAM = 35] the shape is
    degenerate: for scalar fluxes that cause no division of a Python float
    by a zero Python float and any scalar moisture that is not negative,
    [flux_theta_g_constant] returns [nan] or an infinity. *)
Theorem flux_theta_g_constant_degenerate (vth vo vf vt : value) :
  np_isscalar vth = true -> np_isscalar vo = true -> np_isscalar vf = true ->
  holds vt 35 -> no_zero_div vo vf ->
  F64.le (Fin 0) (scalar_of vth) = true ->
  exists y, flux_theta_g_constant vth vo vf vt = Ok (NpFloat y) /\ non_finite y.
Proof.
  intros Sth So Sf Ht Zof Hth.
  destruct (holds_scalar _ _ Ht) as [St Et].
  assert (N35 : (35 : R) <> 0) by lra.
  rewrite flux_theta_g_constant_unfold.
  rewrite flux_at_all_theta_scalar; try assumption; try reflexivity;
    try (eapply holds_no_zero_div; [eassumption | exact N35]);
    try (apply no_zero_div_literal; exact N35).
  eexists. split; [reflexivity |].
  unfold curve_F. apply response_F_non_finite.
  - apply shape_F_degenerate. right. now rewrite Et.
  - rewrite Et. destruct (scalar_of vth) as [x | | |]; try discriminate.
    + simpl in Hth. destruct (Rle_dec 0 x) as [Hx | Hx]; [| discriminate].
      rewrite F64Facts.div_fin by exact N35. simpl.
      destruct (Rle_dec 0 (x / 35)) as [H | H]; [reflexivity |].
      exfalso. apply H. apply Rmult_le_pos; [exact Hx |].
      left. apply Rinv_0_lt_compat. lra.
    + simpl. now rewrite F64Facts.Rneg_false by lra.
Qed.

Lemma flux_theta_g_constant_degenerate_witness :
  exists y,
    flux_theta_g_constant (py 20) (py (-9.7)) (py (-5.36)) (py 35)
    = Ok (NpFloat y) /\ non_finite y.
Proof.
  assert (Z : no_zero_div (py (-9.7)) (py (-5.36)))
    by (apply no_zero_div_literal; lra).
  assert (H : F64.le (Fin 0) (scalar_of (py 20)) = true).
  { simpl. destruct (Rle_dec 0 20); [reflexivity | lra]. }
  exact (flux_theta_g_constant_degenerate (py 20) (py (-9.7)) (py (-5.36))
           (py 35) eq_refl eq_refl eq_refl (or_introl eq_refl) Z H).
Defined.

(** ** Moisture at the optimum, at every temperature *)

(** The shared body at the optimum moisture of a biome whose uptake is the
    moisture curve between two uptakes of the temperature. *)
Lemma soil_OCS_body_at_optimum
  (uptake : value -> value -> result value)
  (opt_uptake other_uptake production : value -> result value)
  (P : float64 -> float64) (ref_sw opt_sw : R) :
  (forall T SW : value,
      uptake T SW
      = (uo <- opt_uptake T ;;
         uf <- other_uptake T ;;
         flux_at_all_theta SW uo uf (py ref_sw) (py opt_sw))) ->
  (forall vT uo : value,
      np_isscalar vT = true -> opt_uptake vT = Ok uo -> np_isscalar uo = true) ->
  (forall vT : value,
      np_isscalar vT = true -> production vT = Ok (NpFloat (P (scalar_of vT)))) ->
  0 < opt_sw ->
  collapses_at_optimum (soil_OCS_body uptake production)
    opt_uptake other_uptake production ref_sw opt_sw.
Proof.
  intros Hup Hscalar Hprod Hpos vT vSW uo uf a ST G HSW Huo Huf Ha.
  exists (P (scalar_of vT)). split; [now apply Hprod |].
  apply soil_OCS_body_open; try assumption; [| now apply Hprod].
  rewrite Hup, Huo, Huf. cbn [bind].
  apply (flux_at_optimum_finite vSW uo uf (py ref_sw) (py opt_sw) opt_sw a);
    try assumption.
  - now apply (Hscalar vT).
  - left. reflexivity.
  - lra.
Qed.

(** The optimum uptake of a scalar temperature is a scalar. *)
Lemma bell_opt_uptake_scalar (vT uo : value) (o f g t : R) :
  f <> 0 -> g <> 0 -> t <> 0 ->
  np_isscalar vT = true ->
  flux_at_all_theta vT (py o) (py f) (py g) (py t) = Ok uo ->
  np_isscalar uo = true.
Proof.
  intros Nf Ng Nt ST H.
  rewrite flux_at_all_theta_scalar in H;
    try assumption; try reflexivity;
    try (apply no_zero_div_literal; assumption).
  now injection H as <-.
Qed.

(** X10: with the moisture at the optimum of the biome the moisture curve
    returns the optimum uptake, at every temperature at which the exponent
    of the moisture curve is finite: for a scalar temperature above the gate
    and every biome, if [curve_shape_a] returns a finite number from the two
    uptakes of that temperature, the gated function returns
    [opt_uptake (T) + production (T)], the sum taken in binary64 arithmetic. *)
Theorem optimum_moisture_collapse :
  collapses_at_optimum grass_soil_OCS
    grass_opt_uptake grass_other_uptake OCS_grass_production 26.9 12.5
  /\ collapses_at_optimum bforest_soil_OCS
       boreal_opt_uptake boreal_other_uptake OCS_forest_production 19.3 12.5
  /\ collapses_at_optimum tforest_soil_OCS
       temperate_opt_uptake temperate_other_uptake OCS_forest_production 51 24.6
  /\ collapses_at_optimum tropforest_soil_OCS
       tropical_opt_uptake tropical_other_uptake OCS_rainforest_production
       31 24.6
  /\ collapses_at_optimum ag_soil_OCS
       (fun _ => ag_opt_uptake) (fun _ => ag_other_uptake) OCS_ag_production
       22 17.7.
Proof.
  repeat apply conj.
  - rewrite grass_soil_OCS_body.
    apply (soil_OCS_body_at_optimum _ _ _ _ (logistic_F 3.9 0.115481 286));
      try reflexivity; try lra.
    + intros vT uo ST H. unfold grass_opt_uptake in H.
      apply (bell_opt_uptake_scalar vT uo (-4.5) (-1.48268657) 25 10.86745456);
        try assumption; lra.
    + apply OCS_grass_production_any.
  - rewrite bforest_soil_OCS_body.
    apply (soil_OCS_body_at_optimum _ _ _ _ (logistic_F 20 0.160745 644.7));
      try reflexivity; try lra.
    + intros vT uo ST H. unfold boreal_opt_uptake in H.
      apply (bell_opt_uptake_scalar vT uo (-18.24779932) (-12) 35 28.05488082);
        try assumption; lra.
    + apply OCS_forest_production_any.
  - rewrite tforest_soil_OCS_body.
    apply (soil_OCS_body_at_optimum _ _ _ _ (logistic_F 20 0.160745 644.7));
      try reflexivity; try lra.
    + intros vT uo _ H. unfold temperate_opt_uptake in H. now injection H as <-.
    + apply OCS_forest_production_any.
  - rewrite tropforest_soil_OCS_body.
    apply (soil_OCS_body_at_optimum _ _ _ _ (logistic_F (2.7 * 3) 0.123581 205));
      try reflexivity; try lra.
    + intros vT uo _ H. unfold tropical_opt_uptake in H. now injection H as <-.
    + apply OCS_rainforest_production_any.
  - rewrite ag_soil_OCS_body.
    apply (soil_OCS_body_at_optimum _ _ _ _ (logistic_F 83 0.087689 146.9));
      try reflexivity; try lra.
    + intros vT uo _ H. unfold ag_opt_uptake in H. now injection H as <-.
    + apply OCS_ag_production_any.
Qed.

Lemma optimum_moisture_collapse_witness :
  exists p : float64,
    OCS_forest_production (py 10) = Ok (NpFloat p)
    /\ tforest_soil_OCS (py 10) (py 24.6)
       = Ok (NpFloat (F64.add (Fin (-12.6)) p)).
Proof.
  assert (G : F64.gt (scalar_of (py 10)) (Fin 0) = true)
    by (apply F64Facts.gt_zero_fin; lra).
  assert (Hr : 0 < -12.6 / (-0.17629655 * 10 + 0.47914552))
    by (apply Rdiv_neg_neg; lra).
  assert (Hq : 0 < 24.6 / 51) by (apply Rdiv_lt_0_compat; lra).
  assert (Hne : 51 <> 24.6) by lra.
  exact (proj1 (proj2 (proj2 optimum_moisture_collapse))
           (py 10) (py 24.6) (py (-12.6))
           (py (-0.17629655 * 10 + 0.47914552))
           (spec_shape (-12.6) (-0.17629655 * 10 + 0.47914552) 51 24.6)
           eq_refl G (or_introl eq_refl) eq_refl eq_refl
           (curve_shape_a_real (py (-12.6)) (py (-0.17629655 * 10 + 0.47914552))
              (py 51) (py 24.6)
              (-12.6) (-0.17629655 * 10 + 0.47914552) 51 24.6
              (or_introl eq_refl) (or_introl eq_refl) (or_introl eq_refl)
              (or_introl eq_refl) Hr Hq Hne)).
Defined.

(** ** The temperate forest below the zero of its fit *)

Lemma neg_over_pos (x y : R) : x < 0 -> 0 < y -> x / y < 0.
Proof.
  intros Hx Hy. pose proof (Rinv_0_lt_compat y Hy). unfold Rdiv. nra.
Qed.

(** X11: below the zero of the linear fit the temperate forest has no
    number to return: for a real temperature [T > 0] with
    [-0.17629655 * T + 0.47914552 > 0] (that is, below about 2.72 degrees)
    and any scalar moisture, [tforest_soil_OCS] returns [nan], the logarithm
    of a negative flux ratio. *)
Theorem temperate_nan_below_fit_zero (vT vSW : value) (T : R) :
  holds vT T -> np_isscalar vSW = true ->
  0 < T -> 0 < -0.17629655 * T + 0.47914552 ->
  tforest_soil_OCS vT vSW = Ok (NpFloat NaN).
Proof.
  intros HT SS Tpos Hfit.
  destruct (holds_scalar _ _ HT) as [ST ET].
  assert (U : temperate_uptake_F (Fin T) (scalar_of vSW) = NaN).
  { unfold temperate_uptake_F, curve_F. cbn [F64.mul F64.add].
    assert (S : shape_F (Fin (-12.6)) (Fin (-0.17629655 * T + 0.47914552))
                  (Fin 51) (Fin 24.6) = NaN).
    { unfold shape_F. rewrite F64Facts.div_fin by lra.
      rewrite F64Facts.log_neg; [reflexivity |].
      apply neg_over_pos; lra. }
    rewrite S. unfold response_F. cbn [F64.mul F64.exp].
    apply mul_NaN_r. }
  rewrite tforest_soil_OCS_body.
  rewrite (soil_OCS_body_open _ _ vT vSW NaN
             (logistic_F 20 0.160745 644.7 (Fin T))); try assumption.
  - reflexivity.
  - rewrite ET. now apply F64Facts.gt_zero_fin.
  - rewrite temperate_uptake_any, ET; try assumption.
    + now rewrite U.
    + right. rewrite ET. cbn [F64.mul F64.add F64.is_zero].
      apply F64Facts.Rzero_false. lra.
  - now rewrite OCS_forest_production_any, ET by assumption.
Qed.

Lemma temperate_nan_below_fit_zero_witness :
  tforest_soil_OCS (py 1) (py 20) = Ok (NpFloat NaN).
Proof.
  assert (Tpos : 0 < 1) by lra.
  assert (Hfit : 0 < -0.17629655 * 1 + 0.47914552) by lra.
  exact (temperate_nan_below_fit_zero (py 1) (py 20) 1
           (or_introl eq_refl) eq_refl Tpos Hfit).
Defined.

(** ** Bounds on the net flux *)

Lemma tropical_uptake_F_real (T : float64) (SW : R) :
  0 < SW -> tropical_uptake_F T (Fin SW) = Fin (tropical_uptake_R SW).
Proof.
  intros HSW.
  apply curve_F_real; try lra;
    first [ apply Rdiv_neg_neg; lra | apply Rdiv_lt_0_compat; lra ].
Qed.

Lemma ag_uptake_F_real (T : float64) (SW : R) :
  0 < SW -> ag_uptake_F T (Fin SW) = Fin (ag_uptake_R SW).
Proof.
  intros HSW.
  apply curve_F_real; try lra;
    first [ apply Rdiv_neg_neg; lra | apply Rdiv_lt_0_compat; lra ].
Qed.

Lemma rainforest_logistic_real (T : R) :
  logistic_F (2.7 * 3) 0.123581 205 (Fin T)
  = Fin (spec_production 8.1 0.123581 205 T).
Proof. rewrite logistic_F_real by lra. do 2 f_equal. lra. Qed.

Lemma tropforest_soil_OCS_real (vT vSW : value) (T SW : R) :
  holds vT T -> holds vSW SW -> 0 < T -> 0 < SW ->
  tropforest_soil_OCS vT vSW
  = Ok (NpFloat (Fin (tropical_uptake_R SW + spec_production 8.1 0.123581 205 T))).
Proof.
  intros HT HSW Tpos SWpos.
  destruct (holds_scalar _ _ HT) as [ST ET], (holds_scalar _ _ HSW) as [SS ES].
  rewrite tropforest_soil_OCS_body.
  rewrite (soil_OCS_body_open _ _ vT vSW (Fin (tropical_uptake_R SW))
             (Fin (spec_production 8.1 0.123581 205 T))); try assumption.
  - reflexivity.
  - rewrite ET. now apply F64Facts.gt_zero_fin.
  - rewrite tropical_uptake_any, ES by assumption.
    now rewrite tropical_uptake_F_real.
  - rewrite OCS_rainforest_production_any, ET by assumption.
    now rewrite rainforest_logistic_real.
Qed.

Lemma ag_soil_OCS_real (vT vSW : value) (T SW : R) :
  holds vT T -> holds vSW SW -> 0 < T -> 0 < SW ->
  ag_soil_OCS vT vSW
  = Ok (NpFloat (Fin (ag_uptake_R SW + spec_production 83 0.087689 146.9 T))).
Proof.
  intros HT HSW Tpos SWpos.
  destruct (holds_scalar _ _ HT) as [ST ET], (holds_scalar _ _ HSW) as [SS ES].
  rewrite ag_soil_OCS_body.
  rewrite (soil_OCS_body_open _ _ vT vSW (Fin (ag_uptake_R SW))
             (Fin (spec_production 83 0.087689 146.9 T))); try assumption.
  - reflexivity.
  - rewrite ET. now apply F64Facts.gt_zero_fin.
  - rewrite ag_uptake_any, ES by assumption.
    now rewrite ag_uptake_F_real.
  - rewrite OCS_ag_production_any, ET by assumption.
    now rewrite logistic_F_real by lra.
Qed.

(** The uptake of a biome with constant temperature curves lies between the
    optimum uptake and zero. *)
Lemma constant_uptake_bounds (SW o f g t : R) :
  o < f -> f < 0 -> 0 < g -> 0 < t -> g <> t -> 0 < SW ->
  o <= spec_curve SW o f g t < 0.
Proof.
  intros Hof Hf Hg Ht Hne HSW.
  assert (Hr : 1 < o / f) by now apply ratio_gt_one_neg.
  assert (Hr0 : 0 < o / f) by lra.
  assert (Hq : 0 < t / g) by now apply Rdiv_lt_0_compat.
  assert (Hth : 0 < SW / t) by now apply Rdiv_lt_0_compat.
  destruct (spec_shape_sign o f g t Hr0 Hq Hne) as (Ha & _ & _).
  destruct (response_factor_le_one (spec_shape o f g t) (SW / t) (Ha Hr) Hth)
    as ((Hk0 & Hk1) & _).
  rewrite spec_curve_factor. nra.
Qed.

(** X12: bounds on the net flux of the two biomes whose uptake does not
    read the temperature, for a temperature in [(0, 100]] and a moisture in
    [(0, 100]]: the uptake is negative and never exceeds its optimum in
    magnitude, the production stays below its maximum, so the tropical flux
    lies strictly between [-2.7] and [8.1] and the agricultural flux
    strictly between [-9.7] and [83]. *)
Theorem net_flux_bounds (vT vSW : value) (T SW : R) :
  holds vT T -> holds vSW SW -> 0 < T <= 100 -> 0 < SW <= 100 ->
  (exists y, tropforest_soil_OCS vT vSW = Ok (NpFloat (Fin y))
             /\ -2.7 < y < 8.1)
  /\ (exists y, ag_soil_OCS vT vSW = Ok (NpFloat (Fin y)) /\ -9.7 < y < 83).
Proof.
  intros HT HSW [Tpos _] [SWpos _]. split.
  - eexists. split; [apply (tropforest_soil_OCS_real vT vSW T SW); assumption |].
    assert (U : -2.7 <= tropical_uptake_R SW < 0)
      by (apply constant_uptake_bounds; lra).
    pose proof (spec_production_bounds 8.1 0.123581 205 T). lra.
  - eexists. split; [apply (ag_soil_OCS_real vT vSW T SW); assumption |].
    assert (U : -9.7 <= ag_uptake_R SW < 0)
      by (apply constant_uptake_bounds; lra).
    pose proof (spec_production_bounds 83 0.087689 146.9 T). lra.
Qed.

Lemma net_flux_bounds_witness :
  exists y, ag_soil_OCS (py 30) (py 10) = Ok (NpFloat (Fin y)) /\ -9.7 < y < 83.
Proof.
  assert (HT : 0 < 30 <= 100) by lra.
  assert (HSW : 0 < 10 <= 100) by lra.
  exact (proj2 (net_flux_bounds (py 30) (py 10) 30 10
                  (or_introl eq_refl) (or_introl eq_refl) HT HSW)).
Defined.

(** ** The scalar path never raises *)

(** X14: on scalars the grassland, boreal, tropical and agricultural
    functions never raise, whatever the scalars hold ([nan] and infinities
    included) and whether they are Python floats or numpy scalars: each
    returns a scalar, the same one as for numpy scalars holding the same
    numbers.  The temperate function does so when the temperature is a numpy
    scalar. *)
Theorem scalar_path_never_raises (vT vSW : value) :
  np_isscalar vT = true -> np_isscalar vSW = true ->
  (exists v, grass_soil_OCS vT vSW = Ok v /\ np_isscalar v = true
             /\ grass_soil_OCS (NpFloat (scalar_of vT)) (NpFloat (scalar_of vSW))
                = Ok v)
  /\ (exists v, bforest_soil_OCS vT vSW = Ok v /\ np_isscalar v = true
                /\ bforest_soil_OCS (NpFloat (scalar_of vT))
                     (NpFloat (scalar_of vSW)) = Ok v)
  /\ (exists v, tropforest_soil_OCS vT vSW = Ok v /\ np_isscalar v = true
                /\ tropforest_soil_OCS (NpFloat (scalar_of vT))
                     (NpFloat (scalar_of vSW)) = Ok v)
  /\ (exists v, ag_soil_OCS vT vSW = Ok v /\ np_isscalar v = true
                /\ ag_soil_OCS (NpFloat (scalar_of vT)) (NpFloat (scalar_of vSW))
                   = Ok v)
  /\ (is_np vT = true ->
      exists v, tforest_soil_OCS vT vSW = Ok v /\ np_isscalar v = true).
Proof.
  intros ST SS.
  split; [| split; [| split; [| split]]].
  - rewrite grass_soil_OCS_body. eexists. split; [| split].
    + apply soil_OCS_body_any; [assumption | |].
      * now apply grass_uptake_any.
      * now apply OCS_grass_production_any.
    + now destruct (F64.gt (scalar_of vT) (Fin 0)).
    + apply (soil_OCS_body_any _ _ (NpFloat (scalar_of vT))
               (NpFloat (scalar_of vSW))); [reflexivity | |].
      * exact (grass_uptake_any (NpFloat (scalar_of vT)) (NpFloat (scalar_of vSW))
                 eq_refl eq_refl).
      * exact (OCS_grass_production_any (NpFloat (scalar_of vT)) eq_refl).
  - rewrite bforest_soil_OCS_body. eexists. split; [| split].
    + apply soil_OCS_body_any; [assumption | |].
      * now apply boreal_uptake_any.
      * now apply OCS_forest_production_any.
    + now destruct (F64.gt (scalar_of vT) (Fin 0)).
    + apply (soil_OCS_body_any _ _ (NpFloat (scalar_of vT))
               (NpFloat (scalar_of vSW))); [reflexivity | |].
      * exact (boreal_uptake_any (NpFloat (scalar_of vT)) (NpFloat (scalar_of vSW))
                 eq_refl eq_refl).
      * exact (OCS_forest_production_any (NpFloat (scalar_of vT)) eq_refl).
  - rewrite tropforest_soil_OCS_body. eexists. split; [| split].
    + apply soil_OCS_body_any; [assumption | |].
      * now apply tropical_uptake_any.
      * now apply OCS_rainforest_production_any.
    + now destruct (F64.gt (scalar_of vT) (Fin 0)).
    + apply (soil_OCS_body_any _ _ (NpFloat (scalar_of vT))
               (NpFloat (scalar_of vSW))); [reflexivity | |].
      * exact (tropical_uptake_any (NpFloat (scalar_of vT)) (NpFloat (scalar_of vSW))
                 eq_refl eq_refl).
      * exact (OCS_rainforest_production_any (NpFloat (scalar_of vT)) eq_refl).
  - rewrite ag_soil_OCS_body. eexists. split; [| split].
    + apply soil_OCS_body_any; [assumption | |].
      * now apply ag_uptake_any.
      * now apply OCS_ag_production_any.
    + now destruct (F64.gt (scalar_of vT) (Fin 0)).
    + apply (soil_OCS_body_any _ _ (NpFloat (scalar_of vT))
               (NpFloat (scalar_of vSW))); [reflexivity | |].
      * exact (ag_uptake_any (NpFloat (scalar_of vT)) (NpFloat (scalar_of vSW))
                 eq_refl eq_refl).
      * exact (OCS_ag_production_any (NpFloat (scalar_of vT)) eq_refl).
  - intros Hnp. rewrite tforest_soil_OCS_body. eexists. split.
    + apply soil_OCS_body_any; [assumption | |].
      * apply temperate_uptake_any; try assumption. now left.
      * now apply OCS_forest_production_any.
    + now destruct (F64.gt (scalar_of vT) (Fin 0)).
Qed.

Lemma scalar_path_never_raises_witness :
  exists v, grass_soil_OCS (PyFloat PInf) (PyFloat NaN) = Ok v
            /\ np_isscalar v = true
            /\ grass_soil_OCS (NpFloat PInf) (NpFloat NaN) = Ok v.
Proof.
  exact (proj1 (scalar_path_never_raises (PyFloat PInf) (PyFloat NaN)
                  eq_refl eq_refl)).
Defined.

(** ** The array path *)

Section ArrayGate.

Variable uptake : value -> value -> result value.
Variable production : value -> result value.
Variable U : float64 -> float64 -> float64.
Variable P : float64 -> float64.

Hypothesis uptake_array : forall l : list (float64 * float64),
  uptake (NdArray (map fst l)) (NdArray (map snd l))
  = Ok (NdArray (map (fun p => U (fst p) (snd p)) l)).
Hypothesis production_array : forall l : list (float64 * float64),
  production (NdArray (map fst l)) = Ok (NdArray (map (fun p => P (fst p)) l)).
Hypothesis uptake_scalar : forall t sw : float64,
  uptake (NpFloat t) (NpFloat sw) = Ok (NpFloat (U t sw)).
Hypothesis production_scalar : forall t : float64,
  production (NpFloat t) = Ok (NpFloat (P t)).

(** On arrays of equal length the body never raises; position by position
    it holds the scalar result above the gate, [0.0] at a finite temperature
    at or below zero, and [nan] at a [nan] or [-inf] temperature. *)
Lemma array_gate_body (ts sws : list float64) :
  length ts = length sws ->
  exists out,
    soil_OCS_body uptake production (NdArray ts) (NdArray sws) = Ok (NdArray out)
    /\ length out = length ts
    /\ forall i, (i < length ts)%nat ->
         (F64.gt (nth i ts NaN) (Fin 0) = true ->
          soil_OCS_body uptake production (NpFloat (nth i ts NaN))
            (NpFloat (nth i sws NaN)) = Ok (NpFloat (nth i out NaN)))
         /\ (forall x, nth i ts NaN = Fin x -> x <= 0 -> nth i out NaN = Fin 0)
         /\ (nth i ts NaN = NaN \/ nth i ts NaN = NInf -> nth i out NaN = NaN).
Proof.
  intros Hlen.
  set (flux := fun T SW => F64.add (U T SW) (P T)).
  exists (map (fun p => gated_array_F flux (fst p) (snd p)) (combine ts sws)).
  split; [| split].
  - rewrite <- (map_fst_combine_eq ts sws Hlen) at 1.
    rewrite <- (map_snd_combine_eq ts sws Hlen) at 2.
    apply (soil_OCS_body_array uptake production U P uptake_array
             production_array).
  - rewrite length_map, length_combine, <- Hlen. apply Nat.min_id.
  - intros i Hi.
    assert (E : nth i (map (fun p => gated_array_F flux (fst p) (snd p))
                         (combine ts sws)) NaN
                = gated_array_F flux (nth i ts NaN) (nth i sws NaN)).
    { rewrite (nth_indep _ NaN
                 (gated_array_F flux (fst (NaN, NaN)) (snd (NaN, NaN)))).
      2:{ rewrite length_map, length_combine, <- Hlen, Nat.min_id. exact Hi. }
      rewrite (map_nth (fun p => gated_array_F flux (fst p) (snd p))).
      now rewrite combine_nth by exact Hlen. }
    rewrite E. unfold gated_array_F. repeat split.
    + intros G. rewrite G.
      rewrite (soil_OCS_body_scalar uptake production U P uptake_scalar
                 production_scalar). now rewrite G.
    + intros x Hx Hle. rewrite Hx. simpl.
      destruct (Rlt_dec 0 x); [lra |]. f_equal. ring.
    + intros [Hn | Hn]; rewrite Hn; [reflexivity |].
      simpl. now rewrite F64Facts.Rzero_true.
Qed.

End ArrayGate.

(** X15: on two arrays of equal length the array path of each gated
    function never raises and returns an array of that length (an empty one
    for empty arrays).  A position with a temperature above zero holds what
    the scalar path returns there, a position with a finite temperature at
    or below zero holds [0.0], and a position with a [nan] or [-inf]
    temperature holds [nan]. *)
Theorem array_path_positions (ts sws : list float64) :
  length ts = length sws ->
  gate_by_position grass_soil_OCS ts sws
  /\ gate_by_position bforest_soil_OCS ts sws
  /\ gate_by_position tforest_soil_OCS ts sws
  /\ gate_by_position tropforest_soil_OCS ts sws
  /\ gate_by_position ag_soil_OCS ts sws.
Proof.
  intros Hlen. unfold gate_by_position. repeat apply conj.
  - rewrite grass_soil_OCS_body.
    apply (array_gate_body grass_uptake OCS_grass_production grass_uptake_F
             (logistic_F 3.9 0.115481 286)
             grass_uptake_array OCS_grass_production_array
             grass_uptake_scalar OCS_grass_production_scalar); assumption.
  - rewrite bforest_soil_OCS_body.
    apply (array_gate_body boreal_uptake OCS_forest_production boreal_uptake_F
             (logistic_F 20 0.160745 644.7)
             boreal_uptake_array OCS_forest_production_array
             boreal_uptake_scalar OCS_forest_production_scalar); assumption.
  - rewrite tforest_soil_OCS_body.
    apply (array_gate_body temperate_uptake OCS_forest_production
             temperate_uptake_F (logistic_F 20 0.160745 644.7)
             temperate_uptake_array OCS_forest_production_array
             temperate_uptake_scalar OCS_forest_production_scalar); assumption.
  - rewrite tropforest_soil_OCS_body.
    apply (array_gate_body tropical_uptake OCS_rainforest_production
             tropical_uptake_F (logistic_F (2.7 * 3) 0.123581 205)
             tropical_uptake_array OCS_rainforest_production_array
             tropical_uptake_scalar OCS_rainforest_production_scalar); assumption.
  - rewrite ag_soil_OCS_body.
    apply (array_gate_body ag_uptake OCS_ag_production ag_uptake_F
             (logistic_F 83 0.087689 146.9)
             ag_uptake_array OCS_ag_production_array
             ag_uptake_scalar OCS_ag_production_scalar); assumption.
Qed.

Lemma array_path_positions_witness :
  exists out,
    grass_soil_OCS (NdArray [Fin 20; Fin (-5); NaN]) (NdArray [Fin 12.5; Fin 20; Fin 3])
    = Ok (NdArray out)
    /\ length out = 3%nat.
Proof.
  destruct (array_path_positions [Fin 20; Fin (-5); NaN] [Fin 12.5; Fin 20; Fin 3]
              eq_refl) as ((out & E & L & _) & _).
  exists out. split; [exact E | exact L].
Defined.

(** X16: a moisture given as a Python float is not broadcast against an
    array of temperatures: whatever the array holds (also when it is empty),
    indexing the float raises [TypeError] in each gated function. *)
Theorem array_temperature_scalar_moisture_raises (ts : list float64) (sw : float64) :
  grass_soil_OCS (NdArray ts) (PyFloat sw) = Raise TypeError
  /\ bforest_soil_OCS (NdArray ts) (PyFloat sw) = Raise TypeError
  /\ tforest_soil_OCS (NdArray ts) (PyFloat sw) = Raise TypeError
  /\ tropforest_soil_OCS (NdArray ts) (PyFloat sw) = Raise TypeError
  /\ ag_soil_OCS (NdArray ts) (PyFloat sw) = Raise TypeError.
Proof.
  assert (H : forall uptake production,
             soil_OCS_body uptake production (NdArray ts) (PyFloat sw)
             = Raise TypeError).
  { intros uptake production. unfold soil_OCS_body.
    cbn [np_isscalar andb negb np_array np_where_gt py py_mul lift2 bind].
    rewrite getitem_where by now rewrite length_map.
    reflexivity. }
  rewrite grass_soil_OCS_body, bforest_soil_OCS_body, tforest_soil_OCS_body,
    tropforest_soil_OCS_body, ag_soil_OCS_body.
  repeat split; apply H.
Qed.

(** ** A scalar temperature over an array of moistures *)

Lemma Rep_scalar_any {A : Type} (l : list A) (v : value) :
  np_isscalar v = true -> Rep l v (fun _ => scalar_of v).
Proof. destruct v; simpl; intros H; try discriminate; constructor. Qed.

Lemma Rep_array_id (sws : list float64) : Rep sws (NdArray sws) (fun sw => sw).
Proof. rewrite <- (map_id sws) at 2. apply Rep_arr. Qed.

(** From a uniform description to a scalar temperature with an array of
    moistures. *)
Ltac mixed_fact lem :=
  let c := fresh "c" in
  let E := fresh "E" in
  let R := fresh "R" in
  let K := fresh "K" in
  let S := fresh "S" in
  intros vT sws ST;
  edestruct (lem float64 sws vT (NdArray sws)) as (c & E & R & K & S);
  [ first [ apply Rep_scalar_any; assumption | apply Rep_array_id | assumption ]
    .. | ];
  rewrite E; f_equal; apply (Rep_array sws c _ R);
  rewrite S, ?ST; reflexivity.

Lemma grass_uptake_mixed (vT : value) (sws : list float64) :
  np_isscalar vT = true ->
  grass_uptake vT (NdArray sws)
  = Ok (NdArray (map (fun sw => grass_uptake_F (scalar_of vT) sw) sws)).
Proof. revert vT sws. mixed_fact @grass_uptake_Rep. Qed.

Lemma boreal_uptake_mixed (vT : value) (sws : list float64) :
  np_isscalar vT = true ->
  boreal_uptake vT (NdArray sws)
  = Ok (NdArray (map (fun sw => boreal_uptake_F (scalar_of vT) sw) sws)).
Proof. revert vT sws. mixed_fact @boreal_uptake_Rep. Qed.

Lemma tropical_uptake_mixed (vT : value) (sws : list float64) :
  np_isscalar vT = true ->
  tropical_uptake vT (NdArray sws)
  = Ok (NdArray (map (fun sw => tropical_uptake_F (scalar_of vT) sw) sws)).
Proof. revert vT sws. mixed_fact @tropical_uptake_Rep. Qed.

Lemma ag_uptake_mixed (vT : value) (sws : list float64) :
  np_isscalar vT = true ->
  ag_uptake vT (NdArray sws)
  = Ok (NdArray (map (fun sw => ag_uptake_F (scalar_of vT) sw) sws)).
Proof. revert vT sws. mixed_fact @ag_uptake_Rep. Qed.

Lemma soil_OCS_body_mixed
  (uptake : value -> value -> result value) (production : value -> result value)
  (U : float64 -> float64 -> float64) (P : float64 -> float64)
  (vT : value) (sws : list float64) :
  np_isscalar vT = true -> F64.gt (scalar_of vT) (Fin 0) = true ->
  uptake vT (NdArray sws) = Ok (NdArray (map (U (scalar_of vT)) sws)) ->
  (forall sw, uptake vT (NpFloat sw) = Ok (NpFloat (U (scalar_of vT) sw))) ->
  production vT = Ok (NpFloat (P (scalar_of vT))) ->
  broadcasts_moisture (soil_OCS_body uptake production) vT sws.
Proof.
  intros ST G Hu Hus Hp.
  exists (map (fun sw => F64.add (U (scalar_of vT) sw) (P (scalar_of vT))) sws).
  assert (E : np_isscalar vT && scalar_gt vT (Fin 0) = true).
  { rewrite ST. destruct vT; simpl in *; try discriminate; exact G. }
  split; [| split].
  - unfold soil_OCS_body. rewrite E, Hu, Hp. cbn [bind py_add lift2].
    now rewrite map_map.
  - apply length_map.
  - intros i Hi.
    rewrite (soil_OCS_body_open uptake production vT _ _ _ ST G (Hus _) Hp).
    do 2 f_equal.
    rewrite (nth_indep
               (map (fun sw => F64.add (U (scalar_of vT) sw) (P (scalar_of vT)))
                  sws)
               NaN (F64.add (U (scalar_of vT) NaN) (P (scalar_of vT))))
      by now rewrite length_map.
    now rewrite (map_nth (fun sw => F64.add (U (scalar_of vT) sw) (P (scalar_of vT)))).
Qed.

(** X17: a scalar temperature above the gate is broadcast over an array of
    moistures: the grassland, boreal, tropical and agricultural functions
    return an array as long as the moistures that holds, at each position,
    what they return for that temperature and the moisture at the position. *)
Theorem scalar_temperature_broadcasts (vT : value) (sws : list float64) :
  np_isscalar vT = true -> F64.gt (scalar_of vT) (Fin 0) = true ->
  broadcasts_moisture grass_soil_OCS vT sws
  /\ broadcasts_moisture bforest_soil_OCS vT sws
  /\ broadcasts_moisture tropforest_soil_OCS vT sws
  /\ broadcasts_moisture ag_soil_OCS vT sws.
Proof.
  intros ST G. repeat apply conj.
  - rewrite grass_soil_OCS_body.
    apply (soil_OCS_body_mixed _ _ grass_uptake_F (logistic_F 3.9 0.115481 286));
      try assumption.
    + now apply grass_uptake_mixed.
    + intros sw. now rewrite grass_uptake_any.
    + now apply OCS_grass_production_any.
  - rewrite bforest_soil_OCS_body.
    apply (soil_OCS_body_mixed _ _ boreal_uptake_F (logistic_F 20 0.160745 644.7));
      try assumption.
    + now apply boreal_uptake_mixed.
    + intros sw. now rewrite boreal_uptake_any.
    + now apply OCS_forest_production_any.
  - rewrite tropforest_soil_OCS_body.
    apply (soil_OCS_body_mixed _ _ tropical_uptake_F
             (logistic_F (2.7 * 3) 0.123581 205)); try assumption.
    + now apply tropical_uptake_mixed.
    + intros sw. now rewrite tropical_uptake_any.
    + now apply OCS_rainforest_production_any.
  - rewrite ag_soil_OCS_body.
    apply (soil_OCS_body_mixed _ _ ag_uptake_F (logistic_F 83 0.087689 146.9));
      try assumption.
    + now apply ag_uptake_mixed.
    + intros sw. now rewrite ag_uptake_any.
    + now apply OCS_ag_production_any.
Qed.

Lemma scalar_temperature_broadcasts_witness :
  broadcasts_moisture ag_soil_OCS (py 30) [Fin 10; Fin 17.7; Fin 22].
Proof.
  assert (G : F64.gt (scalar_of (py 30)) (Fin 0) = true)
    by (apply F64Facts.gt_zero_fin; lra).
  exact (proj2 (proj2 (proj2
           (scalar_temperature_broadcasts (py 30) [Fin 10; Fin 17.7; Fin 22]
              eq_refl G)))).
Defined.

(** ** Arrays of different lengths *)

(** Reading positions below [n] does not see what lies beyond [n]. *)
Lemma getitem_firstn (sws : list float64) (n : nat) (idx : list nat) :
  forallb (fun i => Nat.ltb i n) idx = true -> (n <= length sws)%nat ->
  getitem (NdArray (firstn n sws)) idx = getitem (NdArray sws) idx.
Proof.
  intros Hidx Hn. unfold getitem.
  assert (Hin : forall i, In i idx -> (i < n)%nat).
  { intros i Hi. apply Nat.ltb_lt.
    exact (proj1 (forallb_forall _ idx) Hidx i Hi). }
  assert (H1 : forallb (fun i => Nat.ltb i (length (firstn n sws))) idx = true).
  { apply forallb_forall. intros i Hi. apply Nat.ltb_lt.
    rewrite length_firstn. specialize (Hin i Hi). lia. }
  assert (H2 : forallb (fun i => Nat.ltb i (length sws)) idx = true).
  { apply forallb_forall. intros i Hi. apply Nat.ltb_lt.
    specialize (Hin i Hi). lia. }
  rewrite H1, H2. do 2 f_equal.
  apply map_ext_in. intros i Hi. rewrite nth_firstn.
  now rewrite (proj2 (Nat.ltb_lt i n) (Hin i Hi)).
Qed.

Lemma true_positions_In (k j : nat) (bs : list bool) :
  nth j bs false = true -> In (k + j)%nat (true_positions k bs).
Proof.
  revert k j. induction bs as [| b bs IH]; intros k [| j] H; simpl in *;
    try discriminate.
  - rewrite H, Nat.add_0_r. now left.
  - specialize (IH (S k) j H). rewrite Nat.add_succ_r.
    destruct b; [right |]; exact IH.
Qed.

(** The body reads the moistures only at the positions [np.where] reports
    for the temperatures. *)
Lemma soil_OCS_body_firstn
  (uptake : value -> value -> result value) (production : value -> result value)
  (ts sws : list float64) :
  (length ts <= length sws)%nat ->
  soil_OCS_body uptake production (NdArray ts) (NdArray sws)
  = soil_OCS_body uptake production (NdArray ts)
      (NdArray (firstn (length ts) sws)).
Proof.
  intros Hlen. unfold soil_OCS_body.
  cbn [np_isscalar andb negb np_array np_where_gt].
  rewrite getitem_firstn; [reflexivity | | exact Hlen].
  pose proof (true_positions_in_range [] ts
                (map (fun x => F64.gt x (Fin 0)) ts)) as Hr.
  cbn [app length] in Hr. apply Hr. apply length_map.
Qed.

Lemma soil_OCS_body_short
  (uptake : value -> value -> result value) (production : value -> result value)
  (ts sws : list float64) (i : nat) :
  (length sws <= i)%nat -> (i < length ts)%nat ->
  F64.gt (nth i ts NaN) (Fin 0) = true ->
  soil_OCS_body uptake production (NdArray ts) (NdArray sws) = Raise IndexError.
Proof.
  intros Hlo Hhi G. unfold soil_OCS_body.
  cbn [np_isscalar andb negb np_array np_where_gt py py_mul lift2 bind].
  rewrite getitem_where by now rewrite length_map.
  cbn [bind]. unfold getitem.
  destruct (forallb (fun j => Nat.ltb j (length sws))
              (true_positions 0 (map (fun x => F64.gt x (Fin 0)) ts))) eqn:E;
    [| reflexivity].
  exfalso.
  assert (Hin : In i (true_positions 0 (map (fun x => F64.gt x (Fin 0)) ts))).
  { apply (true_positions_In 0 i).
    rewrite (nth_indep _ false (F64.gt NaN (Fin 0))) by now rewrite length_map.
    now rewrite (map_nth (fun x => F64.gt x (Fin 0))). }
  pose proof (proj1 (forallb_forall _ _) E i Hin) as Hlt.
  apply Nat.ltb_lt in Hlt. lia.
Qed.

(** X18: an array of moistures longer than the array of temperatures is
    accepted: each gated function reads it only at the positions of the
    temperatures, and returns what it returns for the moistures cut to the
    length of the temperatures. *)
Theorem longer_moisture_array_is_cut (ts sws : list float64) :
  (length ts <= length sws)%nat ->
  grass_soil_OCS (NdArray ts) (NdArray sws)
  = grass_soil_OCS (NdArray ts) (NdArray (firstn (length ts) sws))
  /\ bforest_soil_OCS (NdArray ts) (NdArray sws)
     = bforest_soil_OCS (NdArray ts) (NdArray (firstn (length ts) sws))
  /\ tforest_soil_OCS (NdArray ts) (NdArray sws)
     = tforest_soil_OCS (NdArray ts) (NdArray (firstn (length ts) sws))
  /\ tropforest_soil_OCS (NdArray ts) (NdArray sws)
     = tropforest_soil_OCS (NdArray ts) (NdArray (firstn (length ts) sws))
  /\ ag_soil_OCS (NdArray ts) (NdArray sws)
     = ag_soil_OCS (NdArray ts) (NdArray (firstn (length ts) sws)).
Proof.
  intros Hlen.
  rewrite grass_soil_OCS_body, bforest_soil_OCS_body, tforest_soil_OCS_body,
    tropforest_soil_OCS_body, ag_soil_OCS_body.
  repeat split; now apply soil_OCS_body_firstn.
Qed.

Lemma longer_moisture_array_is_cut_witness :
  ag_soil_OCS (NdArray [Fin 20; Fin (-5)]) (NdArray [Fin 10; Fin 17.7; Fin 22])
  = ag_soil_OCS (NdArray [Fin 20; Fin (-5)]) (NdArray [Fin 10; Fin 17.7]).
Proof.
  assert (Hlen : (length [Fin 20; Fin (-5)]
                  <= length [Fin 10; Fin 17.7; Fin 22])%nat) by (simpl; lia).
  exact (proj2 (proj2 (proj2 (proj2
           (longer_moisture_array_is_cut [Fin 20; Fin (-5)]
              [Fin 10; Fin 17.7; Fin 22] Hlen))))).
Defined.

(** X19: an array of moistures shorter than the array of temperatures makes
    each gated function raise [IndexError] as soon as a temperature above
    zero sits at a position beyond the end of the moistures. *)
Theorem shorter_moisture_array_raises (ts sws : list float64) (i : nat) :
  (length sws <= i)%nat -> (i < length ts)%nat ->
  F64.gt (nth i ts NaN) (Fin 0) = true ->
  grass_soil_OCS (NdArray ts) (NdArray sws) = Raise IndexError
  /\ bforest_soil_OCS (NdArray ts) (NdArray sws) = Raise IndexError
  /\ tforest_soil_OCS (NdArray ts) (NdArray sws) = Raise IndexError
  /\ tropforest_soil_OCS (NdArray ts) (NdArray sws) = Raise IndexError
  /\ ag_soil_OCS (NdArray ts) (NdArray sws) = Raise IndexError.
Proof.
  intros Hlo Hhi G.
  rewrite grass_soil_OCS_body, bforest_soil_OCS_body, tforest_soil_OCS_body,
    tropforest_soil_OCS_body, ag_soil_OCS_body.
  repeat split; now apply (soil_OCS_body_short _ _ ts sws i).
Qed.

Lemma shorter_moisture_array_raises_witness :
  grass_soil_OCS (NdArray [Fin (-5); Fin 20]) (NdArray [Fin 10]) = Raise IndexError.
Proof.
  assert (Hlo : (length [Fin 10] <= 1)%nat) by (simpl; lia).
  assert (Hhi : (1 < length [Fin (-5); Fin 20])%nat) by (simpl; lia).
  assert (G : F64.gt (nth 1 [Fin (-5); Fin 20] NaN) (Fin 0) = true)
    by (apply F64Facts.gt_zero_fin; lra).
  exact (proj1 (shorter_moisture_array_raises [Fin (-5); Fin 20] [Fin 10] 1
                  Hlo Hhi G)).
Defined.

(** ** The array path against the numpy scalars of each position *)



(** ** Degenerate shapes never raise with numpy operands *)



(** ** The uptake is never positive *)














(** ** The moisture curve over an array of moistures *)


